(** * ChatScribe: format inference and record extraction

    A shallow embedding of [models/auto_generate_pattern.py] and
    [models/parse_chat_with_pattern.py], with the properties of the
    two-phase parsing engine stated and proved over it.

    Python text is a sequence of Unicode code points, regular expressions
    are the flat programs a backtracking engine runs (single-character
    repeats, group marks, anchors), files are streams of physical lines
    whose reads may raise, and [print] appends to an explicit output log
    and does not fail; the module [Console] gives [auto_generate_pattern]
    once more, with a [print] that raises when standard output refuses a
    message. *)

From Stdlib Require Import String Ascii.
From Stdlib Require Import List Bool Arith ZArith NArith Lia.
From Stdlib Require Import Floats.SpecFloat.
Import ListNotations.

Set Implicit Arguments.

(** ** Text *)

Module Text.

(** A character is a Unicode code point, a [str] a list of them. *)
Definition char := N.
Definition str := list char.

(** ASCII literals of the development, as code points. *)
Definition lit (s : string) : str :=
  List.map N_of_ascii (list_ascii_of_string s).

Definition char_eqb (a b : char) : bool := N.eqb a b.

Fixpoint str_eqb (a b : str) : bool :=
  match a, b with
  | [], [] => true
  | x :: a', y :: b' => char_eqb x y && str_eqb a' b'
  | _, _ => false
  end.

(** [str.isspace] for one character, which is also the class [\s] of a
    [str] pattern: the code points CPython lists as whitespace. *)
Definition isspace (c : char) : bool :=
  ((9 <=? c) && (c <=? 13) || (28 <=? c) && (c <=? 32) ||
   (c =? 133) || (c =? 160) || (c =? 5760) ||
   (8192 <=? c) && (c <=? 8202) ||
   (c =? 8232) || (c =? 8233) || (c =? 8239) || (c =? 8287) ||
   (c =? 12288))%N.

(** Runs of decimal digits (general category Nd, Unicode 14): first code
    point and length of each run. *)
Definition decimal_runs : list (N * N) :=
  [ (48, 10); (1632, 10); (1776, 10); (1984, 10); (2406, 10); (2534, 10);
    (2662, 10); (2790, 10); (2918, 10); (3046, 10); (3174, 10); (3302, 10);
    (3430, 10); (3558, 10); (3664, 10); (3792, 10); (3872, 10); (4160, 10);
    (4240, 10); (6112, 10); (6160, 10); (6470, 10); (6608, 10); (6784, 10);
    (6800, 10); (6992, 10); (7088, 10); (7232, 10); (7248, 10); (42528, 10);
    (43216, 10); (43264, 10); (43472, 10); (43504, 10); (43600, 10);
    (44016, 10); (65296, 10); (66720, 10); (68912, 10); (69734, 10);
    (69872, 10); (69942, 10); (70096, 10); (70384, 10); (70736, 10);
    (70864, 10); (71248, 10); (71360, 10); (71472, 10); (71904, 10);
    (72016, 10); (72784, 10); (73040, 10); (73120, 10); (92768, 10);
    (92864, 10); (93008, 10); (120782, 50); (123200, 10); (123632, 10);
    (125264, 10); (130032, 10) ]%N.

(** The class [\d] of a [str] pattern ([str.isdecimal] on one character). *)
Definition isdecimal (c : char) : bool :=
  existsb (fun r => (fst r <=? c) && (c <? fst r + snd r))%N decimal_runs.

Definition newline : char := 10%N.

(** [s.lstrip()], [s.rstrip()] and [s.strip()] with no argument. *)
Fixpoint lstrip (s : str) : str :=
  match s with
  | c :: t => if isspace c then lstrip t else s
  | [] => []
  end.

Definition rstrip (s : str) : str := rev (lstrip (rev s)).

Definition strip (s : str) : str := rstrip (lstrip s).

(** Truth value of a [str]: non-empty. *)
Definition truthy (s : str) : bool :=
  match s with [] => false | _ :: _ => true end.

End Text.

Import Text.

(** ** Regular expressions *)

Module Re.

(** Character sets that occur in the patterns of the table. *)
Inductive cset : Type :=
| Any                 (* .    : any character but a newline *)
| Space               (* \s *)
| Digit               (* \d *)
| Only (c : char)     (* a literal character *)
| Except (c : char).  (* [^c] *)

Definition mem (cs : cset) (c : char) : bool :=
  match cs with
  | Any => negb (char_eqb c newline)
  | Space => isspace c
  | Digit => isdecimal c
  | Only x => char_eqb c x
  | Except x => negb (char_eqb c x)
  end.

(** A compiled pattern is a flat program.  Every quantifier of the table
    applies to a single character set, so a repeat carries the set, its
    bounds and its greediness; group [g] is delimited by the marks
    [2*(g-1)] and [2*(g-1)+1]. *)
Inductive node : Type :=
| Bol                                       (* ^ *)
| Eol                                       (* $ *)
| One (cs : cset)                           (* exactly one character *)
| Rep (cs : cset) (lo : nat) (hi : option nat) (greedy : bool)
| Mark (i : nat).

Definition Pattern := list node.

Definition marks := list (nat * nat).

Fixpoint get_mark (i : nat) (m : marks) : option nat :=
  match m with
  | [] => None
  | (j, p) :: m' => if Nat.eqb i j then Some p else get_mark i m'
  end.

Definition below (hi : option nat) (n : nat) : bool :=
  match hi with
  | None => true
  | Some h => Nat.ltb n h
  end.

(** [$] without MULTILINE: at the end of the text, or just before a
    newline that ends it. *)
Definition at_end (s : str) : bool :=
  match s with
  | [] => true
  | [c] => char_eqb c newline
  | _ => false
  end.

Section Repeat.
Variable cs : cset.
Variable lo : nat.
Variable hi : option nat.
(** The rest of the program, run on the remaining text at a position. *)
Variable k : str -> nat -> option marks.

(** Greedy repeat: take one more character when allowed and fall back to
    the rest of the program when that fails.  [n] characters are taken
    so far. *)
Fixpoint rep_greedy (s : str) (pos n : nat) : option marks :=
  let more :=
    match s with
    | c :: t =>
        if mem cs c && below hi n then rep_greedy t (S pos) (S n) else None
    | [] => None
    end in
  match more with
  | Some r => Some r
  | None => if Nat.leb lo n then k s pos else None
  end.

(** Lazy repeat: try the rest of the program first, take one more
    character when that fails. *)
Fixpoint rep_lazy (s : str) (pos n : nat) : option marks :=
  match (if Nat.leb lo n then k s pos else None) with
  | Some r => Some r
  | None =>
      match s with
      | c :: t =>
          if mem cs c && below hi n then rep_lazy t (S pos) (S n) else None
      | [] => None
      end
  end.
End Repeat.

(** Backtracking run of a program on the remaining text [s], [pos]
    characters into the line, with the marks set so far. *)
Fixpoint run (prog : Pattern) (s : str) (pos : nat) (m : marks)
  : option marks :=
  match prog with
  | [] => Some m
  | Bol :: k => if Nat.eqb pos 0 then run k s pos m else None
  | Eol :: k => if at_end s then run k s pos m else None
  | One cs :: k =>
      match s with
      | c :: t => if mem cs c then run k t (S pos) m else None
      | [] => None
      end
  | Rep cs lo hi true :: k =>
      rep_greedy cs lo hi (fun t p => run k t p m) s pos 0
  | Rep cs lo hi false :: k =>
      rep_lazy cs lo hi (fun t p => run k t p m) s pos 0
  | Mark i :: k => run k s pos ((i, pos) :: m)
  end.

(** [pattern.groups]: the number of capture groups. *)
Fixpoint ngroups (prog : Pattern) : nat :=
  match prog with
  | [] => 0
  | Mark i :: k => (if Nat.even i then 1 else 0) + ngroups k
  | _ :: k => ngroups k
  end.

(** A match object: the text matched against and the marks of the
    successful run. *)
Record Match : Type := mkMatch { m_string : str; m_marks : marks }.

(** [pattern.match(line)]: anchored at the start of [line]. *)
Definition re_match (p : Pattern) (line : str) : option Match :=
  match run p line 0 [] with
  | Some m => Some (mkMatch line m)
  | None => None
  end.

Definition matches (p : Pattern) (line : str) : bool :=
  match re_match p line with Some _ => true | None => false end.

(** [match.group(g)] for [g >= 1]: [None] when the group took no part. *)
Definition group (mt : Match) (g : nat) : option str :=
  match get_mark (2 * (g - 1)) (m_marks mt),
        get_mark (2 * (g - 1) + 1) (m_marks mt) with
  | Some a, Some b => Some (firstn (b - a) (skipn a (m_string mt)))
  | _, _ => None
  end.

(** [match.groups()] of a match of pattern [p]. *)
Definition groups (p : Pattern) (mt : Match) : list (option str) :=
  List.map (group mt) (seq 1 (ngroups p)).

(** Shorthands that follow the concrete syntax. *)
Definition chr (s : string) : char :=
  match lit s with c :: _ => c | [] => 0%N end.
Definition L (s : string) : node := One (Only (chr s)).
Definition plus (cs : cset) : node := Rep cs 1 None true.
Definition plus_lazy (cs : cset) : node := Rep cs 1 None false.
Definition star (cs : cset) : node := Rep cs 0 None true.
Definition range (cs : cset) (lo hi : nat) : node := Rep cs lo (Some hi) true.
Definition not_chr (s : string) : cset := Except (chr s).
Definition op (g : nat) : node := Mark (2 * (g - 1)).
Definition cl (g : nat) : node := Mark (2 * (g - 1) + 1).

End Re.

Import Re.

(** ** Files, exceptions and output *)

Module Sys.

(** The exceptions the two functions can meet; all derive from
    [Exception]. *)
Inductive exn : Type :=
| FileNotFoundError
| PermissionError
| UnicodeDecodeError
| OSError
| ZeroDivisionError
| IndexError
| UnicodeEncodeError.

Definition is_file_not_found (e : exn) : bool :=
  match e with FileNotFoundError => true | _ => false end.

Inductive result (A : Type) : Type :=
| Return (a : A)
| Raise (e : exn).
Arguments Return {A} a.
Arguments Raise {A} e.

(** An open text file: the physical lines still to be read, each as
    [readline] returns it, ending in end of input or in a read that
    raises. *)
Inductive stream : Type :=
| Eof
| Line (l : str) (rest : stream)
| Broken (e : exn).

(** What [open(file_path, "r", encoding="utf-8")] does for a path. *)
Inductive opened : Type :=
| Denied (e : exn)
| Handle (f : stream).

Definition filesystem := str -> opened.

(** [f.readline()]: the next physical line, the empty string at end of
    input. *)
Definition readline (f : stream) : result (str * stream) :=
  match f with
  | Eof => Return ([], Eof)
  | Line l rest => Return (l, rest)
  | Broken e => Raise e
  end.

(** A stream that yields the given lines and then ends as [tail]. *)
Fixpoint lines_then (ls : list str) (tail : stream) : stream :=
  match ls with
  | [] => tail
  | l :: ls' => Line l (lines_then ls' tail)
  end.

(** The [print] calls of the two functions, by call site. *)
Inductive msg : Type :=
| Analyzing (lines_to_sample : Z)
| SampleFileNotFound (file_path : str)
| ErrorReadingFile (e : exn)
| EmptySample
| PotentialPattern (pattern_name : str)
| ConsistentPattern (pattern_name : str)
| RegexIs (p : Pattern)
| Inconsistent (pattern_name : str)
| NoConsistentPattern
| ParseFileNotFound (file_path : str)
| UnexpectedError (e : exn).

(** A computation that prints and then returns or raises. *)
Definition IO (A : Type) : Type := (list msg * result A)%type.

Definition ret {A} (a : A) : IO A := ([], Return a).
Definition raise {A} (e : exn) : IO A := ([], Raise e).
Definition print (m : msg) : IO unit := ([m], Return tt).
Definition lift {A} (r : result A) : IO A := ([], r).

Definition bind {A B} (x : IO A) (f : A -> IO B) : IO B :=
  match x with
  | (out, Return a) => let (out', r) := f a in (out ++ out', r)
  | (out, Raise e) => (out, Raise e)
  end.

Definition stdout {A} (x : IO A) : list msg := fst x.
Definition outcome {A} (x : IO A) : result A := snd x.

End Sys.

Import Sys.

Notation "x <- c1 ;; c2" := (bind c1 (fun x => c2))
  (at level 61, c1 at next level, right associativity).
Notation "c1 ;; c2" := (bind c1 (fun _ => c2))
  (at level 61, right associativity).

(** ** Numbers *)

Module Num.

(** [float(z)] for an [int] that a binary64 number holds exactly or
    rounds to. *)
Definition py_float (z : Z) : spec_float := binary_normalize 53 1024 z 0 false.

(** [a / b] on [int]s: the binary64 quotient, correctly rounded.  The
    operands are counts of lines, far below 2^53, so each is a binary64
    number and the quotient of the two floats is the rounded quotient of
    the integers. *)
Definition true_div (a b : Z) : result spec_float :=
  if Z.eqb b 0 then Raise ZeroDivisionError
  else Return (SFdiv 53 1024 (py_float a) (py_float b)).

(** The literal [0.9]: the binary64 number nearest to nine tenths,
    8106479329266893 * 2^-53. *)
Definition f0_9 : spec_float := S754_finite false 8106479329266893 (-53).

Definition float_gt (x y : spec_float) : bool := SFltb y x.

End Num.

Import Num.

(** ** models/auto_generate_pattern.py *)

(** One entry of [patterns_to_try]:
    [name: (test_regex, (capture_regex, [column_names]))]. *)
Record Candidate : Type := mkCandidate {
  pattern_name : str;
  test_re : Pattern;
  capture_re : Pattern;
  cols : list str
}.

(** 1. [[Date, Time] User: Message]
    test:    ^ \[ .+? , \s* .+? \] \s* [^:]+ : \s* .*
    capture: ^ \[ ([^,]+) , \s* (.+?) \] \s* ([^:]+) : \s* ( .* ) $
    (written here with spaces between the items) *)
Definition bracket_datetime_user : Candidate :=
  mkCandidate (lit "bracket_datetime_user")
    [ Bol; L "["; plus_lazy Any; L ","; star Space; plus_lazy Any; L "]";
      star Space; plus (not_chr ":"); L ":"; star Space; star Any ]
    [ Bol; L "["; op 1; plus (not_chr ","); cl 1; L ","; star Space;
      op 2; plus_lazy Any; cl 2; L "]"; star Space;
      op 3; plus (not_chr ":"); cl 3; L ":"; star Space;
      op 4; star Any; cl 4; Eol ]
    [ lit "Date"; lit "Time"; lit "User"; lit "Message" ].

(** 2. [Date, Time - User: Message]
    test:    ^ \d{1,2} / \d{1,2} / \d{2,4} , \s* \d{1,2} : \d{1,2} \s* - \s*
             [^:]+ : \s* .*
    capture: ^ ([^,]+) , \s* ([^-]+) \s* - \s* ([^:]+) : \s* ( .* ) $ *)
Definition date_time_dash_user : Candidate :=
  mkCandidate (lit "date_time_dash_user")
    [ Bol; range Digit 1 2; L "/"; range Digit 1 2; L "/"; range Digit 2 4;
      L ","; star Space; range Digit 1 2; L ":"; range Digit 1 2;
      star Space; L "-"; star Space; plus (not_chr ":"); L ":"; star Space;
      star Any ]
    [ Bol; op 1; plus (not_chr ","); cl 1; L ","; star Space;
      op 2; plus (not_chr "-"); cl 2; star Space; L "-"; star Space;
      op 3; plus (not_chr ":"); cl 3; L ":"; star Space;
      op 4; star Any; cl 4; Eol ]
    [ lit "Date"; lit "Time"; lit "User"; lit "Message" ].

(** 3. [[Timestamp] User: Message]
    test:    ^ \[ .+? \] \s* [^:]+ : \s* .*
    capture: ^ \[ (.+?) \] \s* ([^:]+) : \s* ( .* ) $ *)
Definition bracket_timestamp_user : Candidate :=
  mkCandidate (lit "bracket_timestamp_user")
    [ Bol; L "["; plus_lazy Any; L "]"; star Space; plus (not_chr ":");
      L ":"; star Space; star Any ]
    [ Bol; L "["; op 1; plus_lazy Any; cl 1; L "]"; star Space;
      op 2; plus (not_chr ":"); cl 2; L ":"; star Space;
      op 3; star Any; cl 3; Eol ]
    [ lit "Timestamp"; lit "User"; lit "Message" ].

(** 4. [Timestamp - User: Message]
    test:    ^ .+? \s* - \s* [^:]+ : \s* .*
    capture: ^ (.+?) \s* - \s* ([^:]+) : \s* ( .* ) $ *)
Definition timestamp_dash_user : Candidate :=
  mkCandidate (lit "timestamp_dash_user")
    [ Bol; plus_lazy Any; star Space; L "-"; star Space; plus (not_chr ":");
      L ":"; star Space; star Any ]
    [ Bol; op 1; plus_lazy Any; cl 1; star Space; L "-"; star Space;
      op 2; plus (not_chr ":"); cl 2; L ":"; star Space;
      op 3; star Any; cl 3; Eol ]
    [ lit "Timestamp"; lit "User"; lit "Message" ].

(** The dict [patterns_to_try], in insertion order. *)
Definition patterns_to_try : list Candidate :=
  [ bracket_datetime_user; date_time_dash_user;
    bracket_timestamp_user; timestamp_dash_user ].

(** The body of [for i in range(lines_to_sample)]: read a line, strip it,
    keep it when it is not empty.  [n] iterations are left. *)
Fixpoint read_sample (f : stream) (n : nat) (sample_lines : list str)
  : result (list str) :=
  match n with
  | O => Return sample_lines
  | S n' =>
      match readline f with
      | Raise e => Raise e
      | Return (l, f') =>
          let line := strip l in
          read_sample f' n'
            (if truthy line then sample_lines ++ [line] else sample_lines)
      end
  end.

(** The [try] block: open the file and read the sample. *)
Definition open_and_sample (fs : filesystem) (file_path : str)
  (lines_to_sample : Z) : result (list str) :=
  match fs file_path with
  | Denied e => Raise e
  | Handle f => read_sample f (Z.to_nat lines_to_sample) []
  end.

(** [sample_lines[0]]. *)
Definition first_line (sample_lines : list str) : result str :=
  match sample_lines with
  | l :: _ => Return l
  | [] => Raise IndexError
  end.

(** The inner loop: the number of sample lines [capture_re] matches. *)
Fixpoint count_matches (capture : Pattern) (sample_lines : list str) : Z :=
  match sample_lines with
  | [] => 0
  | line :: rest =>
      (if matches capture line then 1 else 0) + count_matches capture rest
  end.

Definition len {A} (l : list A) : Z := Z.of_nat (List.length l).

(** Truth value of a list: non-empty. *)
Definition truthy_list {A} (l : list A) : bool :=
  match l with [] => false | _ :: _ => true end.

Definition Chosen : Type := (option Pattern * option (list str))%type.

(** The loop over [patterns_to_try.items()] and what follows it. *)
Fixpoint try_patterns (table : list Candidate) (sample_lines : list str)
  : IO Chosen :=
  match table with
  | [] =>
      print NoConsistentPattern ;;
      ret (None, None)
  | c :: rest =>
      l0 <- lift (first_line sample_lines) ;;
      if matches (test_re c) l0 then
        print (PotentialPattern (pattern_name c)) ;;
        let match_count := count_matches (capture_re c) sample_lines in
        ratio <- lift (true_div match_count (len sample_lines)) ;;
        if float_gt ratio f0_9 then
          print (ConsistentPattern (pattern_name c)) ;;
          print (RegexIs (capture_re c)) ;;
          ret (Some (capture_re c), Some (cols c))
        else
          print (Inconsistent (pattern_name c)) ;;
          try_patterns rest sample_lines
      else try_patterns rest sample_lines
  end.

Definition auto_generate_pattern (fs : filesystem) (file_path : str)
  (lines_to_sample : Z) : IO Chosen :=
  print (Analyzing lines_to_sample) ;;
  match open_and_sample fs file_path lines_to_sample with
  | Raise e =>
      if is_file_not_found e then
        print (SampleFileNotFound file_path) ;;
        ret (None, None)
      else
        print (ErrorReadingFile e) ;;
        ret (None, None)
  | Return sample_lines =>
      if negb (truthy_list sample_lines) then
        print EmptySample ;;
        ret (None, None)
      else try_patterns patterns_to_try sample_lines
  end.

(** ** models/parse_chat_with_pattern.py *)

(** A record is a Python dict from column name to captured value, kept in
    insertion order; a value is [None] or a [str]. *)
Definition Record : Type := list (str * option str).

(** [d[k] = v]: replace the value of an existing key in place, append a
    new key. *)
Fixpoint dict_set (k : str) (v : option str) (d : Record) : Record :=
  match d with
  | [] => [(k, v)]
  | (k', v') :: d' =>
      if str_eqb k k' then (k, v) :: d' else (k', v') :: dict_set k v d'
  end.

(** [dict(pairs)]. *)
Definition dict (pairs : list (str * option str)) : Record :=
  fold_left (fun d kv => dict_set (fst kv) (snd kv) d) pairs [].

(** [d.get(k)]: the value stored under [k], if any. *)
Fixpoint dict_get (k : str) (d : Record) : option (option str) :=
  match d with
  | [] => None
  | (k', v) :: d' => if str_eqb k k' then Some v else dict_get k d'
  end.

Definition keys (d : Record) : list str := List.map fst d.

(** The clean-up loop: every value that is a [str] is replaced by its
    stripped form, under the same key. *)
Definition strip_values (record : Record) : Record :=
  List.map (fun kv => (fst kv, option_map strip (snd kv))) record.

(** The record built for a matching line:
    [dict(zip(columns, match.groups()))], then the clean-up. *)
Definition make_record (pattern : Pattern) (columns : list str) (mt : Match)
  : Record :=
  strip_values (dict (combine columns (groups pattern mt))).

(** What one physical line adds to [parsed_data]. *)
Definition parse_line (pattern : Pattern) (columns : list str) (l : str)
  : list Record :=
  let line := strip l in
  if negb (truthy line) then []
  else
    match re_match pattern line with
    | Some mt => [make_record pattern columns mt]
    | None => []
    end.

(** [for line in file]: the list [parsed_data] is extended in place, so
    it keeps what was appended when a read raises. *)
Fixpoint iterate (pattern : Pattern) (columns : list str) (f : stream)
  (parsed_data : list Record) : list Record * option exn :=
  match f with
  | Eof => (parsed_data, None)
  | Broken e => (parsed_data, Some e)
  | Line l rest =>
      iterate pattern columns rest
        (parsed_data ++ parse_line pattern columns l)
  end.

Definition parse_chat_with_pattern (fs : filesystem) (file_path : str)
  (pattern : Pattern) (columns : list str) : IO (list Record) :=
  let parsed_data := [] in
  let (parsed_data, raised) :=
    match fs file_path with
    | Denied e => (parsed_data, Some e)
    | Handle file => iterate pattern columns file parsed_data
    end in
  match raised with
  | None => ret parsed_data
  | Some e =>
      (if is_file_not_found e then print (ParseFileNotFound file_path)
       else print (UnexpectedError e)) ;;
      ret parsed_data
  end.

(** ** Vocabulary of the properties *)

(** A program that succeeds on a text whatever the position and marks. *)
Definition succeeds (prog : Pattern) (t : str) : Prop :=
  forall pos m, run prog t pos m <> None.

(** A text with no whitespace at either end. *)
Definition trimmed (s : str) : Prop := lstrip s = s /\ rstrip s = s.

(** The acceptance condition of one candidate on a sample: its shape test
    passes on the first line and its capture expression matches more than
    nine tenths of the lines. *)
Definition accepts (c : Candidate) (sample_lines : list str) : bool :=
  match first_line sample_lines,
        true_div (count_matches (capture_re c) sample_lines)
                 (len sample_lines) with
  | Return l0, Return ratio =>
      matches (test_re c) l0 && float_gt ratio f0_9
  | _, _ => false
  end.

(** The acceptance test on a ratio: [m / n > 0.9], false when the division
    raises. *)
Definition exceeds (m n : Z) : bool :=
  match true_div m n with
  | Return ratio => float_gt ratio f0_9
  | Raise _ => false
  end.

(** What the function returns for an accepted candidate, and for none. *)
Definition chosen (c : Candidate) : Chosen :=
  (Some (capture_re c), Some (cols c)).

Definition not_found : Chosen := (None, None).

(** Reading the sample: the first [n] physical lines, stripped, the empty
    ones dropped. *)
Definition sample_of (n : nat) (ls : list str) : list str :=
  filter truthy (List.map strip (firstn n ls)).

(** The records of a list of physical lines, in line order. *)
Definition records_of (pattern : Pattern) (columns : list str)
  (ls : list str) : list Record :=
  flat_map (parse_line pattern columns) ls.

(** With a format of the table, a record holds exactly the columns of the
    format, in their order, each with a text. *)
Definition populated (columns : list str) (r : Record) : Prop :=
  keys r = columns /\
  Forall (fun kv => exists v, snd kv = Some v /\ trimmed v) r.

(** Between [lo] and [hi] decimal digits. *)
Definition digits (lo hi : nat) (d : str) : Prop :=
  lo <= List.length d <= hi /\ Forall (fun c => isdecimal c = true) d.

(** Day, month and year separated by slashes, a comma and a blank, hour and
    minute separated by a colon, a dash between blanks, a user name with
    no colon in it, a colon and a blank, and a message on one line. *)
Inductive layout : str -> Prop :=
| layout_line d1 d2 d3 h mi user message :
    digits 1 2 d1 -> digits 1 2 d2 -> digits 2 4 d3 ->
    digits 1 2 h -> digits 1 2 mi ->
    user <> [] ->
    Forall (fun c => c <> chr ":") user ->
    Forall (fun c => c <> newline) message ->
    layout (d1 ++ lit "/" ++ d2 ++ lit "/" ++ d3 ++ lit ", " ++
            h ++ lit ":" ++ mi ++ lit " - " ++ user ++ lit ": " ++ message).

(** ** Example files *)

(** A physical line: the text and its line terminator. *)
Definition physical (s : string) : str := lit s ++ [newline].

Definition chat_txt : str := lit "chat.txt".

(** A file system that holds one file, under the name [chat.txt]. *)
Definition disk (f : opened) : filesystem :=
  fun file_path =>
    if str_eqb file_path chat_txt then f else Denied FileNotFoundError.

Definition hello : string := "10/5/23, 14:02 - Alice: Hello there"%string.

Definition twenty_messages : list string :=
  [ "10/5/23, 14:02 - Alice: Hello there"%string;
    "10/5/23, 14:03 - Bob: Hi Alice"%string;
    "10/5/23, 14:04 - Carol: How are you?"%string;
    "10/5/23, 14:05 - Dan: Fine, thanks"%string;
    "10/5/23, 14:06 - Alice: Lunch at 12:30?"%string;
    "10/5/23, 14:07 - Bob: Sure - where?"%string;
    "10/5/23, 14:08 - Carol: The usual place"%string;
    "10/5/23, 14:09 - Dan: See you there"%string;
    "10/5/23, 14:10 - Alice: Running late"%string;
    "10/5/23, 14:11 - Bob: No problem"%string;
    "10/5/23, 14:12 - Carol: Almost there"%string;
    "10/5/23, 14:13 - Dan: I got a table"%string;
    "10/5/23, 14:14 - Alice: Ordering now"%string;
    "10/5/23, 14:15 - Bob: Coffee for me"%string;
    "10/5/23, 14:16 - Carol: Same here"%string;
    "10/5/23, 14:17 - Dan: Thanks!"%string;
    "10/5/23, 14:18 - Alice: That was good"%string;
    "10/5/23, 14:19 - Bob: See you tomorrow"%string;
    "10/5/23, 14:20 - Carol: Bye"%string;
    "10/5/23, 14:21 - Dan: Good night"%string ].

(** Twenty messages, fully readable. *)
Definition chat_of_twenty : filesystem :=
  disk (Handle (lines_then (List.map physical twenty_messages) Eof)).

(** One message, then a read that raises. *)
Definition chat_cut_short : filesystem :=
  disk (Handle (Line (physical hello) (Broken UnicodeDecodeError))).

(** No file at all. *)
Definition no_chat : filesystem := fun _ => Denied FileNotFoundError.

(** A readable file in none of the known formats. *)
Definition chat_of_noise : filesystem :=
  disk (Handle (lines_then
    [ physical "Messages are end-to-end encrypted";
      physical "hello world" ] Eof)).

(** A single line that the capture expression of [date_time_dash_user]
    matches and its shape test does not. *)
Definition chat_of_words : filesystem :=
  disk (Handle (lines_then [ physical "abc, def - Bob: hi" ] Eof)).

(** A single line that three candidates accept. *)
Definition chat_of_brackets : filesystem :=
  disk (Handle (lines_then [ physical "[1, 2] a-b: c" ] Eof)).

(** Three messages with a notice and an empty line between them. *)
Definition chat_of_five : filesystem :=
  disk (Handle (lines_then
    [ physical hello;
      physical "<Media omitted>";
      physical "10/5/23, 14:03 - Bob: Hi Alice";
      physical EmptyString;
      physical "10/5/23, 14:05 - Alice: Bye" ] Eof)).

(** Three lines of whitespace before the first message. *)
Definition chat_after_blanks : filesystem :=
  disk (Handle (lines_then
    [ physical EmptyString; physical "   "; physical EmptyString; physical hello ] Eof)).

(** A sample of twenty lines, two of them not messages. *)
Definition sample_with_two_notices : list str :=
  List.map lit (firstn 18 twenty_messages) ++
  [ lit "<Media omitted>"; lit "Bob left" ].

Definition text (s : string) : option str := Some (lit s).

Unset Implicit Arguments.

(** ** main.py *)

Module Api.

(** What [except Exception as e] can catch inside the endpoint: an
    exception of the runtime, or an [HTTPException], which derives from
    [Exception] too.  The detail of an [HTTPException] is kept by raise
    site; that of the handler embeds [str(e)] of what it caught. *)
Inductive raised : Type :=
| PyError (e : exn)
| HTTPException (status_code : Z) (detail : detail)
with detail : Type :=
| InvalidFileType             (* Invalid file type. Please upload a .txt file. *)
| NoConsistentChatPattern     (* Could not determine a consistent chat pattern ... *)
| InternalServerError (cause : raised).  (* An internal server error occurred: ... *)

(** How a call of the endpoint ends. *)
Inductive answer : Type :=
| Returned (chat_records : list Record)
| Raised (r : raised).

(** The [print] calls of the endpoint, by call site, and those of the two
    functions it calls. *)
Inductive line : Type :=
| Core (m : msg)
| AnalyzingTemp (temp_file_path : str)
| SuccessfullyParsed (n : Z)
| NoPatternGenerated
| UnexpectedApiError (cause : raised)
| CleanedUp (temp_file_path : str).

(** An [UploadFile]: its name, and its content as the text stream that
    reading the uploaded bytes back with [encoding="utf-8"] gives. *)
Record UploadFile : Type := mkUpload { filename : str; file : stream }.

(** What happens in [with tempfile.NamedTemporaryFile(delete=False, ...)]:
    the file cannot be created; it is created under [name] and
    [shutil.copyfileobj] raises after writing part of the upload; or the
    upload is copied whole. *)
Inductive storing : Type :=
| NoTempFile (e : exn)
| CopyInterrupted (name : str) (e : exn) (written : stream)
| Copied (name : str).

(** Files on disk: writing one, [os.unlink], [os.path.exists]. *)
Definition write (disk : filesystem) (path : str) (f : stream) : filesystem :=
  fun p => if str_eqb p path then Handle f else disk p.

Definition unlink (disk : filesystem) (path : str) : filesystem :=
  fun p => if str_eqb p path then Denied FileNotFoundError else disk p.

Definition exists_ (disk : filesystem) (path : str) : bool :=
  match disk path with
  | Denied FileNotFoundError => false
  | _ => true
  end.

(** [s.endswith(suffix)]. *)
Definition endswith (s suffix : str) : bool :=
  Nat.leb (List.length suffix) (List.length s) &&
  str_eqb (skipn (List.length s - List.length suffix) s) suffix.

(** Truth value of [GENERATED_PATTERN and DATA_COLUMNS]: a compiled
    pattern is always true, a list is true when it is not empty, [None]
    is false. *)
Definition both (GENERATED_PATTERN : option Pattern)
  (DATA_COLUMNS : option (list str)) : bool :=
  match GENERATED_PATTERN, DATA_COLUMNS with
  | Some _, Some columns => truthy_list columns
  | _, _ => false
  end.

(** The state a call leaves behind. *)
Record Run : Type := mkRun {
  result : answer;
  disk_after : filesystem;
  upload_closed : bool;
  console : list line
}.

(** Steps 3 and 4 of the [try] block, once the upload is stored under
    [temp_file_path]. *)
Definition analyse_and_parse (disk : filesystem) (temp_file_path : str)
  (lines_to_sample : Z) : list line * (list Record + raised) :=
  let (out1, r1) := auto_generate_pattern disk temp_file_path lines_to_sample in
  let printed := AnalyzingTemp temp_file_path :: List.map Core out1 in
  match r1 with
  | Raise e => (printed, inr (PyError e))
  | Return (GENERATED_PATTERN, DATA_COLUMNS) =>
      match GENERATED_PATTERN, DATA_COLUMNS with
      | Some pattern, Some columns =>
          if both GENERATED_PATTERN DATA_COLUMNS then
            let (out2, r2) :=
              parse_chat_with_pattern disk temp_file_path pattern columns in
            match r2 with
            | Raise e => (printed ++ List.map Core out2, inr (PyError e))
            | Return chat_records =>
                (printed ++ List.map Core out2 ++
                 [SuccessfullyParsed (len chat_records)],
                 inl chat_records)
            end
          else
            (printed ++ [NoPatternGenerated],
             inr (HTTPException 400 NoConsistentChatPattern))
      | _, _ =>
          (printed ++ [NoPatternGenerated],
           inr (HTTPException 400 NoConsistentChatPattern))
      end
  end.

(** The endpoint [POST /parse/]. *)
Definition parse_chat_file (disk : filesystem) (tmp : storing)
  (lines_to_sample : Z) (upload : UploadFile) : Run :=
  if negb (endswith (filename upload) (lit ".txt")) then
    mkRun (Raised (HTTPException 400 InvalidFileType)) disk false []
  else
    (* try *)
    let '(temp_file_path, disk, printed, tried) :=
      match tmp with
      | NoTempFile e => (None, disk, [], inr (PyError e))
      | CopyInterrupted name e written =>
          (None, write disk name written, [], inr (PyError e))
      | Copied name =>
          let disk := write disk name (file upload) in
          let (printed, tried) :=
            analyse_and_parse disk name lines_to_sample in
          (Some name, disk, printed, tried)
      end in
    (* except Exception as e *)
    let (printed, result) :=
      match tried with
      | inl chat_records => (printed, Returned chat_records)
      | inr e =>
          (printed ++ [UnexpectedApiError e],
           Raised (HTTPException 500 (InternalServerError e)))
      end in
    (* finally *)
    match temp_file_path with
    | Some path =>
        if truthy path && exists_ disk path then
          mkRun result (unlink disk path) true (printed ++ [CleanedUp path])
        else mkRun result disk true printed
    | None => mkRun result disk true printed
    end.

End Api.

(** ** Further vocabulary *)

(** The physical lines a stream yields before it ends or a read raises. *)
Fixpoint lines_of (f : stream) : list str :=
  match f with
  | Line l rest => l :: lines_of rest
  | _ => []
  end.

(** What a program asks of a text, whatever the order in which the engine
    tries the alternatives: a way to cut the text into the pieces its
    nodes take. *)
Fixpoint denotes (prog : Pattern) (s : str) (pos : nat) : Prop :=
  match prog with
  | [] => True
  | Bol :: k => pos = 0 /\ denotes k s pos
  | Eol :: k => at_end s = true /\ denotes k s pos
  | One cs :: k =>
      exists c t, s = c :: t /\ mem cs c = true /\ denotes k t (S pos)
  | Rep cs lo hi _ :: k =>
      exists u t,
        s = u ++ t /\ Forall (fun c => mem cs c = true) u /\
        lo <= List.length u /\
        (forall h, hi = Some h -> List.length u <= h) /\
        denotes k t (pos + List.length u)
  | Mark _ :: k => denotes k s pos
  end.

(** A program that succeeds on a text at one position, whatever the
    marks set so far. *)
Definition succeeds_at (prog : Pattern) (s : str) (pos : nat) : Prop :=
  forall m, run prog s pos m <> None.

(** A program without its group marks. *)
Definition is_mark (nd : node) : bool :=
  match nd with Mark _ => true | _ => false end.

Definition unmark (prog : Pattern) : Pattern :=
  filter (fun nd => negb (is_mark nd)) prog.

(** A stretch of a program with no anchor in it, and the least number of
    characters it takes. *)
Fixpoint floating (seg : Pattern) : bool :=
  match seg with
  | [] => true
  | Bol :: _ | Eol :: _ => false
  | _ :: k => floating k
  end.

Fixpoint min_len (seg : Pattern) : nat :=
  match seg with
  | [] => 0
  | One _ :: k => S (min_len k)
  | Rep _ lo _ _ :: k => lo + min_len k
  | _ :: k => min_len k
  end.

(** A line as a text file yields it once stripped: no newline inside. *)
Definition one_line (line : str) : Prop := ~ In newline line.

(** Example uploads. *)
Definition tmp_name : str := lit "/tmp/tmpab12cd".

Definition upload_of_twenty : Api.UploadFile :=
  Api.mkUpload (lit "chat.txt")
    (lines_then (List.map physical twenty_messages) Eof).

Definition upload_of_noise : Api.UploadFile :=
  Api.mkUpload (lit "notes.txt")
    (lines_then [ physical "Messages are end-to-end encrypted";
                  physical "hello world" ] Eof).

Definition upload_of_picture : Api.UploadFile :=
  Api.mkUpload (lit "holiday.TXT")
    (lines_then (List.map physical twenty_messages) Eof).

(** A disk without temporary files. *)
Definition empty_disk : filesystem := fun _ => Denied FileNotFoundError.

(** ** models/auto_generate_pattern.py, with a standard output that can
    refuse *)

Module Console.

(** What [print] does with a message on a given standard output: it
    writes it ([None]), or it raises (an encoding that cannot take the
    message, a closed pipe). *)
Definition console : Type := msg -> option exn.

(** A standard output that takes every message. *)
Definition accepting : console := fun _ => None.

(** A computation that prints on a given standard output and then returns
    or raises; what was printed before an exception stays printed. *)
Definition IO (A : Type) : Type := console -> list msg * result A.

Definition ret {A} (a : A) : IO A := fun _ => ([], Return a).
Definition lift {A} (r : result A) : IO A := fun _ => ([], r).

Definition print (m : msg) : IO unit :=
  fun out =>
    match out m with
    | None => ([m], Return tt)
    | Some e => ([], Raise e)
    end.

Definition bind {A B} (x : IO A) (f : A -> IO B) : IO B :=
  fun out =>
    match x out with
    | (w, Return a) => let (w', r) := f a out in (w ++ w', r)
    | (w, Raise e) => (w, Raise e)
    end.

(** The loop over [patterns_to_try.items()] and what follows it; none of
    its [print] calls stands inside a [try]. *)
Fixpoint try_patterns (table : list Candidate) (sample_lines : list str)
  : IO Chosen :=
  match table with
  | [] =>
      bind (print NoConsistentPattern) (fun _ =>
      ret (None, None))
  | c :: rest =>
      bind (lift (first_line sample_lines)) (fun l0 =>
      if matches (test_re c) l0 then
        bind (print (PotentialPattern (pattern_name c))) (fun _ =>
        let match_count := count_matches (capture_re c) sample_lines in
        bind (lift (true_div match_count (len sample_lines))) (fun ratio =>
        if float_gt ratio f0_9 then
          bind (print (ConsistentPattern (pattern_name c))) (fun _ =>
          bind (print (RegexIs (capture_re c))) (fun _ =>
          ret (Some (capture_re c), Some (cols c))))
        else
          bind (print (Inconsistent (pattern_name c))) (fun _ =>
          try_patterns rest sample_lines)))
      else try_patterns rest sample_lines)
  end.

(** The function: the first [print] stands before the [try], the [try]
    holds the reading only, and the handlers print outside it. *)
Definition auto_generate_pattern (fs : filesystem) (file_path : str)
  (lines_to_sample : Z) : IO Chosen :=
  bind (print (Analyzing lines_to_sample)) (fun _ =>
  match open_and_sample fs file_path lines_to_sample with
  | Raise e =>
      if is_file_not_found e then
        bind (print (SampleFileNotFound file_path)) (fun _ =>
        ret (None, None))
      else
        bind (print (ErrorReadingFile e)) (fun _ =>
        ret (None, None))
  | Return sample_lines =>
      if negb (truthy_list sample_lines) then
        bind (print EmptySample) (fun _ =>
        ret (None, None))
      else try_patterns patterns_to_try sample_lines
  end).

(** A standard output with an ASCII encoding: the three messages that
    carry an emoji (source lines 15, 90 and 97) cannot be encoded. *)
Definition ascii_stdout : console :=
  fun m =>
    match m with
    | Analyzing _ | ConsistentPattern _ | NoConsistentPattern =>
        Some UnicodeEncodeError
    | _ => None
    end.

End Console.

(** How a run can end: with no format, with a format of the table, or
    with what a refused [print] raises. *)
Definition ends_well (out : Console.console) (r : result Chosen) : Prop :=
  r = Return (None, None) \/
  (exists capture columns, r = Return (Some capture, Some columns)) \/
  (exists m e, out m = Some e /\ r = Raise e).

(** A later entry that is more permissive than an earlier one: on every
    line as a text file yields it, its shape test and its capture
    expression match whatever those of the earlier entry match. *)
Definition more_permissive (c1 c2 : Candidate) : Prop :=
  forall line, one_line line ->
    (matches (test_re c1) line = true -> matches (test_re c2) line = true) /\
    (matches (capture_re c1) line = true ->
     matches (capture_re c2) line = true).

(** * Properties *)

(** ** The matching engine *)

Module ReFacts.

(** A repeat hands over to the rest of the program: its result is a result
    of the continuation somewhere in the text. *)
Lemma rep_greedy_result cs lo hi k s : forall pos n r,
  rep_greedy cs lo hi k s pos n = Some r -> exists t p, k t p = Some r.
Proof.
  induction s as [|c t IH]; intros pos n r; simpl.
  - destruct (Nat.leb lo n); [eauto | discriminate].
  - destruct (mem cs c && below hi n).
    + destruct (rep_greedy cs lo hi k t (S pos) (S n)) eqn:E.
      * intros [= <-]. eapply IH; eauto.
      * destruct (Nat.leb lo n); [eauto | discriminate].
    + destruct (Nat.leb lo n); [eauto | discriminate].
Qed.

Lemma rep_lazy_result cs lo hi k s : forall pos n r,
  rep_lazy cs lo hi k s pos n = Some r -> exists t p, k t p = Some r.
Proof.
  induction s as [|c t IH]; intros pos n r; simpl.
  - destruct (Nat.leb lo n); [|discriminate].
    destruct (k [] pos) eqn:E; [intros [= <-]; eauto | discriminate].
  - destruct (if Nat.leb lo n then k (c :: t) pos else None) eqn:E.
    + intros [= <-]. destruct (Nat.leb lo n); [eauto | discriminate].
    + destruct (mem cs c && below hi n); [apply IH | discriminate].
Qed.

(** Marks are only ever added, and a successful run has set every mark of
    its program. *)
Lemma get_mark_cons i j p m :
  get_mark i m <> None -> get_mark i ((j, p) :: m) <> None.
Proof. simpl. destruct (Nat.eqb i j); [discriminate | auto]. Qed.

Lemma run_marks prog : forall s pos m m',
  run prog s pos m = Some m' ->
  (forall i, get_mark i m <> None -> get_mark i m' <> None) /\
  (forall i, In (Mark i) prog -> get_mark i m' <> None).
Proof.
  induction prog as [|nd k IH]; intros s pos m m' H; simpl in H.
  - injection H as <-. split; [auto | intros i []].
  - destruct nd as [| |cs|cs lo hi g|j].
    + destruct (Nat.eqb pos 0); [|discriminate].
      destruct (IH _ _ _ _ H) as [A B]. split; [exact A|].
      intros i [E|E]; [discriminate | auto].
    + destruct (at_end s); [|discriminate].
      destruct (IH _ _ _ _ H) as [A B]. split; [exact A|].
      intros i [E|E]; [discriminate | auto].
    + destruct s as [|c t]; [discriminate|].
      destruct (mem cs c); [|discriminate].
      destruct (IH _ _ _ _ H) as [A B]. split; [exact A|].
      intros i [E|E]; [discriminate | auto].
    + assert (exists t p, run k t p m = Some m') as (t & p & R).
      { destruct g; [eapply rep_greedy_result in H | eapply rep_lazy_result in H];
          exact H. }
      destruct (IH _ _ _ _ R) as [A B]. split; [exact A|].
      intros i [E|E]; [discriminate | auto].
    + destruct (IH _ _ _ _ H) as [A B]. split.
      * intros i Hi. apply A. apply get_mark_cons. exact Hi.
      * intros i [E|E]; [|auto]. injection E as ->. apply A. simpl.
        rewrite Nat.eqb_refl. discriminate.
Qed.

Lemma rep_greedy_complete cs lo hi k u : forall t pos n,
  Forall (fun c => mem cs c = true) u ->
  lo <= n + length u ->
  (forall h, hi = Some h -> n + length u <= h) ->
  k t (pos + length u) <> None ->
  rep_greedy cs lo hi k (u ++ t) pos n <> None.
Proof.
  induction u as [|c u IH]; intros t pos n Hu Hlo Hhi Hk; simpl in *.
  - rewrite Nat.add_0_r in *.
    destruct t as [|c t]; simpl.
    + apply Nat.leb_le in Hlo. rewrite Hlo. exact Hk.
    + destruct (if mem cs c && below hi n
                then rep_greedy cs lo hi k t (S pos) (S n) else None);
        [discriminate|].
      apply Nat.leb_le in Hlo. rewrite Hlo. exact Hk.
  - inversion Hu as [|? ? Hc Hu']; subst.
    assert (Hb : below hi n = true).
    { destruct hi as [h|]; simpl; [|reflexivity].
      apply Nat.ltb_lt. specialize (Hhi h eq_refl). lia. }
    rewrite Hc, Hb. simpl.
    assert (R : rep_greedy cs lo hi k (u ++ t) (S pos) (S n) <> None).
    { apply IH; auto; try lia.
      - intros h Hh. specialize (Hhi h Hh). lia.
      - replace (S pos + length u) with (pos + S (length u)) by lia.
        exact Hk. }
    destruct (rep_greedy cs lo hi k (u ++ t) (S pos) (S n));
      [discriminate | contradiction].
Qed.

Lemma rep_lazy_complete cs lo hi k u : forall t pos n,
  Forall (fun c => mem cs c = true) u ->
  lo <= n + length u ->
  (forall h, hi = Some h -> n + length u <= h) ->
  k t (pos + length u) <> None ->
  rep_lazy cs lo hi k (u ++ t) pos n <> None.
Proof.
  induction u as [|c u IH]; intros t pos n Hu Hlo Hhi Hk; simpl in *.
  - rewrite Nat.add_0_r in *. apply Nat.leb_le in Hlo.
    destruct t as [|c t]; simpl; rewrite Hlo.
    + destruct (k [] pos); [discriminate | contradiction].
    + destruct (k (c :: t) pos); [discriminate | contradiction].
  - inversion Hu as [|? ? Hc Hu']; subst.
    assert (Hb : below hi n = true).
    { destruct hi as [h|]; simpl; [|reflexivity].
      apply Nat.ltb_lt. specialize (Hhi h eq_refl). lia. }
    rewrite Hc, Hb. simpl.
    destruct (if Nat.leb lo n then k (c :: u ++ t) pos else None);
      [discriminate|].
    apply IH; auto; try lia.
    + intros h Hh. specialize (Hhi h Hh). lia.
    + replace (S pos + length u) with (pos + S (length u)) by lia.
      exact Hk.
Qed.

(** Stepping through a program along a given split of the text. *)
Lemma succeeds_rep cs lo hi g k u t :
  Forall (fun c => mem cs c = true) u ->
  lo <= length u ->
  (forall h, hi = Some h -> length u <= h) ->
  succeeds k t ->
  succeeds (Rep cs lo hi g :: k) (u ++ t).
Proof.
  intros Hu Hlo Hhi Hk pos m. simpl.
  destruct g; [apply rep_greedy_complete | apply rep_lazy_complete];
    simpl; auto.
Qed.

Lemma succeeds_one cs k c t :
  mem cs c = true -> succeeds k t -> succeeds (One cs :: k) (c :: t).
Proof. intros Hc Hk pos m. simpl. rewrite Hc. apply Hk. Qed.

Lemma succeeds_mark i k t : succeeds k t -> succeeds (Mark i :: k) t.
Proof. intros Hk pos m. simpl. apply Hk. Qed.

Lemma succeeds_eol : succeeds [Eol] [].
Proof. intros pos m. simpl. discriminate. Qed.

Lemma succeeds_nil t : succeeds [] t.
Proof. intros pos m. simpl. discriminate. Qed.

Lemma matches_bol prog line :
  succeeds prog line -> matches (Bol :: prog) line = true.
Proof.
  intros H. unfold matches, re_match. simpl.
  specialize (H 0 []). destruct (run prog line 0 []);
    [reflexivity | contradiction].
Qed.

(** The groups of a match are all set when the pattern closes each of
    them. *)
Lemma matches_re_match p line :
  matches p line = true -> exists mt, re_match p line = Some mt.
Proof.
  unfold matches. destruct (re_match p line); [eauto | discriminate].
Qed.

Lemma group_set p line mt g :
  re_match p line = Some mt ->
  In (op g) p -> In (cl g) p ->
  exists v, group mt g = Some v.
Proof.
  unfold re_match. destruct (run p line 0 []) as [m|] eqn:R; [|discriminate].
  intros [= <-] Ho Hc. destruct (run_marks _ _ _ _ _ R) as [_ B].
  unfold group. simpl m_marks.
  pose proof (B _ Ho) as H1. pose proof (B _ Hc) as H2.
  unfold op, cl in *.
  destruct (get_mark (2 * (g - 1)) m); [|contradiction].
  destruct (get_mark (2 * (g - 1) + 1) m); [|contradiction].
  eauto.
Qed.

End ReFacts.

(** ** Stripping *)

Module StripFacts.

Lemma lstrip_idem s : lstrip (lstrip s) = lstrip s.
Proof.
  induction s as [|c t IH]; simpl; [reflexivity|].
  destruct (isspace c) eqn:E; [exact IH | simpl; rewrite E; reflexivity].
Qed.

Lemma rstrip_idem s : rstrip (rstrip s) = rstrip s.
Proof. unfold rstrip. rewrite rev_involutive, lstrip_idem. reflexivity. Qed.

Lemma lstrip_snoc a c :
  isspace c = false -> lstrip (a ++ [c]) = lstrip a ++ [c].
Proof.
  intros Hc. induction a as [|x a IH]; simpl.
  - rewrite Hc. reflexivity.
  - destruct (isspace x); [exact IH | reflexivity].
Qed.

Lemma rstrip_cons c t :
  isspace c = false -> rstrip (c :: t) = c :: rstrip t.
Proof.
  intros Hc. unfold rstrip. simpl. rewrite lstrip_snoc by exact Hc.
  rewrite rev_app_distr. reflexivity.
Qed.

Lemma lstrip_head s :
  lstrip s = [] \/ exists c t, lstrip s = c :: t /\ isspace c = false.
Proof.
  induction s as [|c t IH]; simpl; [left; reflexivity|].
  destruct (isspace c) eqn:E; [exact IH | right; eauto].
Qed.

Lemma strip_trimmed s : trimmed (strip s).
Proof.
  unfold trimmed, strip. split; [|apply rstrip_idem].
  destruct (lstrip_head s) as [E | (c & t & E & Hc)]; rewrite E.
  - reflexivity.
  - rewrite rstrip_cons by exact Hc. simpl. rewrite Hc. reflexivity.
Qed.

Lemma strip_idem s : strip (strip s) = strip s.
Proof.
  destruct (strip_trimmed s) as [A B]. unfold strip at 1.
  rewrite A. exact B.
Qed.

(** A text made of whitespace only strips to the empty text. *)
Lemma lstrip_blank s :
  Forall (fun c => isspace c = true) s -> lstrip s = [].
Proof.
  induction 1 as [|c t Hc _ IH]; simpl; [reflexivity|].
  rewrite Hc. exact IH.
Qed.

Lemma strip_blank s :
  Forall (fun c => isspace c = true) s -> strip s = [].
Proof. intros H. unfold strip. rewrite lstrip_blank by exact H. reflexivity. Qed.

End StripFacts.

(** ** Inference *)

Module InferFacts.

Lemma outcome_pair {A} (out : list msg) (r : result A) : outcome (out, r) = r.
Proof. reflexivity. Qed.

Lemma true_div_len {A} m (l : list A) :
  l <> [] -> exists r, true_div m (len l) = Return r.
Proof.
  intros H. unfold true_div, len. destruct l; [contradiction|].
  simpl List.length. rewrite Nat2Z.inj_succ.
  destruct (Z.eqb_spec (Z.succ (Z.of_nat (List.length l))) 0); [lia | eauto].
Qed.

(** One turn of the loop over the table. *)
Lemma try_patterns_accept c rest sample :
  accepts c sample = true ->
  try_patterns (c :: rest) sample =
    ([PotentialPattern (pattern_name c); ConsistentPattern (pattern_name c);
      RegexIs (capture_re c)], Return (chosen c)).
Proof.
  unfold accepts. simpl try_patterns.
  destruct (first_line sample) as [l0|e]; [|discriminate].
  destruct (true_div _ _) as [ratio|e]; [|discriminate].
  intros H. apply andb_prop in H as [H1 H2].
  unfold lift, bind, print, ret. rewrite H1. simpl. rewrite H2. reflexivity.
Qed.

Lemma try_patterns_reject c rest sample :
  sample <> [] ->
  accepts c sample = false ->
  try_patterns (c :: rest) sample =
    ((if matches (test_re c) (hd [] sample)
      then [PotentialPattern (pattern_name c); Inconsistent (pattern_name c)]
      else []) ++ stdout (try_patterns rest sample),
     outcome (try_patterns rest sample)).
Proof.
  intros Hne. unfold accepts. simpl try_patterns.
  destruct (true_div_len (count_matches (capture_re c) sample) _ Hne) as [r ->].
  destruct sample as [|l0 ls]; [contradiction|]. simpl first_line. simpl hd.
  unfold lift, bind, print, ret, stdout, outcome.
  destruct (try_patterns rest (l0 :: ls)) as [out res].
  destruct (matches (test_re c) l0); simpl.
  - intros ->. reflexivity.
  - intros _. reflexivity.
Qed.

Lemma try_patterns_nil sample :
  try_patterns [] sample = ([NoConsistentPattern], Return not_found).
Proof. reflexivity. Qed.

(** The loop returns the first candidate of the table that accepts the
    sample, and nothing when none does. *)
Lemma try_patterns_first pre c post sample :
  Forall (fun c' => accepts c' sample = false) pre ->
  accepts c sample = true ->
  outcome (try_patterns (pre ++ c :: post) sample) = Return (chosen c).
Proof.
  intros Hpre Hc.
  assert (Hne : sample <> []).
  { intros ->. unfold accepts in Hc. simpl in Hc. discriminate. }
  induction Hpre as [|c' pre Hc' _ IH]; simpl app.
  - rewrite try_patterns_accept by exact Hc. reflexivity.
  - rewrite try_patterns_reject by assumption. exact IH.
Qed.

Lemma try_patterns_none table sample :
  sample <> [] ->
  Forall (fun c' => accepts c' sample = false) table ->
  outcome (try_patterns table sample) = Return not_found.
Proof.
  intros Hne H. induction H as [|c' pre Hc' _ IH].
  - reflexivity.
  - rewrite try_patterns_reject by assumption. exact IH.
Qed.

(** The loop never raises and answers all or nothing. *)
Lemma try_patterns_total table sample :
  sample <> [] ->
  outcome (try_patterns table sample) = Return not_found \/
  exists c, In c table /\ accepts c sample = true /\
            outcome (try_patterns table sample) = Return (chosen c).
Proof.
  intros Hne. induction table as [|c rest IH].
  - left. reflexivity.
  - destruct (accepts c sample) eqn:E.
    + right. exists c. rewrite try_patterns_accept by exact E.
      split; [left; reflexivity | split; [exact E | reflexivity]].
    + rewrite try_patterns_reject by assumption. unfold outcome at 1 3. simpl snd.
      destruct IH as [IH | (c' & Hin & Ha & IH)]; [left; exact IH|].
      right. exists c'. split; [right; exact Hin | split; assumption].
Qed.

Lemma read_sample_lines ls : forall tail n acc,
  n <= List.length ls ->
  read_sample (lines_then ls tail) n acc = Return (acc ++ sample_of n ls).
Proof.
  unfold sample_of.
  induction ls as [|l ls IH]; intros tail n acc Hn; simpl in Hn.
  - assert (n = 0) as -> by lia. simpl. rewrite app_nil_r. reflexivity.
  - destruct n as [|n]; simpl.
    + rewrite app_nil_r. reflexivity.
    + rewrite IH by lia. destruct (truthy (strip l)).
      * rewrite <- app_assoc. reflexivity.
      * reflexivity.
Qed.

Lemma read_sample_eof : forall n acc, read_sample Eof n acc = Return acc.
Proof. induction n as [|n IH]; intros acc; simpl; [reflexivity | apply IH]. Qed.

Lemma read_sample_whole ls : forall n acc,
  read_sample (lines_then ls Eof) n acc = Return (acc ++ sample_of n ls).
Proof.
  unfold sample_of.
  induction ls as [|l ls IH]; intros n acc.
  - simpl lines_then. rewrite read_sample_eof, firstn_nil. simpl.
    rewrite app_nil_r. reflexivity.
  - destruct n as [|n]; simpl.
    + rewrite app_nil_r. reflexivity.
    + rewrite IH. destruct (truthy (strip l)).
      * rewrite <- app_assoc. reflexivity.
      * reflexivity.
Qed.

(** The function on a file whose sample could be read. *)
Lemma auto_generate_pattern_sampled fs file_path n sample :
  open_and_sample fs file_path n = Return sample ->
  sample <> [] ->
  auto_generate_pattern fs file_path n =
    (Analyzing n :: stdout (try_patterns patterns_to_try sample),
     outcome (try_patterns patterns_to_try sample)).
Proof.
  intros H Hne. unfold auto_generate_pattern. rewrite H.
  destruct sample as [|l0 ls]; [contradiction|]. simpl truthy_list. simpl negb.
  cbv iota. unfold bind at 1. unfold print at 1.
  destruct (try_patterns patterns_to_try (l0 :: ls)) as [out res]. reflexivity.
Qed.

Lemma auto_generate_pattern_empty fs file_path n :
  open_and_sample fs file_path n = Return [] ->
  auto_generate_pattern fs file_path n =
    ([Analyzing n; EmptySample], Return not_found).
Proof. intros H. unfold auto_generate_pattern. rewrite H. reflexivity. Qed.

Lemma auto_generate_pattern_raised fs file_path n e :
  open_and_sample fs file_path n = Raise e ->
  auto_generate_pattern fs file_path n =
    ([Analyzing n;
      if is_file_not_found e then SampleFileNotFound file_path
      else ErrorReadingFile e], Return not_found).
Proof.
  intros H. unfold auto_generate_pattern. rewrite H.
  destruct (is_file_not_found e); reflexivity.
Qed.

Lemma count_matches_all p sample :
  Forall (fun l => matches p l = true) sample ->
  count_matches p sample = len sample.
Proof.
  unfold len. induction 1 as [|l ls Hl _ IH]; [reflexivity|].
  simpl count_matches. rewrite Hl, IH. simpl List.length. lia.
Qed.

End InferFacts.

(** ** Extraction *)

Module ParseFacts.

Lemma iterate_lines pattern columns ls : forall tail acc,
  iterate pattern columns (lines_then ls tail) acc =
  iterate pattern columns tail (acc ++ records_of pattern columns ls).
Proof.
  unfold records_of.
  induction ls as [|l ls IH]; intros tail acc; simpl.
  - rewrite app_nil_r. reflexivity.
  - rewrite IH, <- app_assoc. reflexivity.
Qed.

(** Every stream is a list of lines followed by the end of input or by a
    read that raises. *)
Lemma stream_shape f :
  exists ls, f = lines_then ls Eof \/ exists e, f = lines_then ls (Broken e).
Proof.
  induction f as [|l rest [ls IH]|e].
  - exists []. left. reflexivity.
  - exists (l :: ls). destruct IH as [-> | [e ->]].
    + left. reflexivity.
    + right. exists e. reflexivity.
  - exists []. right. exists e. reflexivity.
Qed.

Lemma parse_readable fs file_path pattern columns ls :
  fs file_path = Handle (lines_then ls Eof) ->
  parse_chat_with_pattern fs file_path pattern columns =
    ([], Return (records_of pattern columns ls)).
Proof.
  intros H. unfold parse_chat_with_pattern. rewrite H, iterate_lines.
  reflexivity.
Qed.

Lemma parse_broken fs file_path pattern columns ls e :
  fs file_path = Handle (lines_then ls (Broken e)) ->
  parse_chat_with_pattern fs file_path pattern columns =
    ([if is_file_not_found e then ParseFileNotFound file_path
      else UnexpectedError e],
     Return (records_of pattern columns ls)).
Proof.
  intros H. unfold parse_chat_with_pattern. rewrite H, iterate_lines.
  simpl. destruct (is_file_not_found e); reflexivity.
Qed.

Lemma parse_denied fs file_path pattern columns e :
  fs file_path = Denied e ->
  parse_chat_with_pattern fs file_path pattern columns =
    ([if is_file_not_found e then ParseFileNotFound file_path
      else UnexpectedError e], Return []).
Proof.
  intros H. unfold parse_chat_with_pattern. rewrite H.
  destruct (is_file_not_found e); reflexivity.
Qed.

(** A line yields one record when its stripped form is not empty and
    matches, and none otherwise. *)
Lemma parse_line_match pattern columns l mt :
  strip l <> [] ->
  re_match pattern (strip l) = Some mt ->
  parse_line pattern columns l = [make_record pattern columns mt].
Proof.
  intros Hne H. unfold parse_line. rewrite H.
  destruct (strip l); [contradiction | reflexivity].
Qed.

Lemma parse_line_skip pattern columns l :
  strip l = [] \/ matches pattern (strip l) = false ->
  parse_line pattern columns l = [].
Proof.
  unfold parse_line, matches. intros [-> | H]; [reflexivity|].
  destruct (truthy (strip l)); [|reflexivity]. simpl.
  destruct (re_match pattern (strip l)); [discriminate | reflexivity].
Qed.

Lemma parse_line_inv pattern columns l r :
  In r (parse_line pattern columns l) ->
  exists mt, re_match pattern (strip l) = Some mt /\
             r = make_record pattern columns mt.
Proof.
  unfold parse_line. destruct (truthy (strip l)); simpl; [|intros []].
  destruct (re_match pattern (strip l)) as [mt|]; simpl; [|intros []].
  intros [<- | []]. eauto.
Qed.

(** No capture expression of the table matches the empty line. *)
Lemma table_rejects_empty c :
  In c patterns_to_try -> matches (capture_re c) [] = false.
Proof.
  intros H. repeat (destruct H as [<- | H]; [reflexivity|]). destruct H.
Qed.

(** The values of a record are stripped. *)
Lemma make_record_values pattern columns mt k v :
  In (k, Some v) (make_record pattern columns mt) -> trimmed v.
Proof.
  unfold make_record, strip_values. intros H. apply in_map_iff in H.
  destruct H as ([k' [v'|]] & E & _); simpl in E; [|discriminate].
  injection E as _ <-. apply StripFacts.strip_trimmed.
Qed.

Ltac in_program := repeat ((left; reflexivity) || right).

Lemma make_record_populated c line mt :
  In c patterns_to_try ->
  re_match (capture_re c) line = Some mt ->
  populated (cols c) (make_record (capture_re c) (cols c) mt).
Proof.
  intros Hc Hm.
  assert (G : forall g, In (op g) (capture_re c) -> In (cl g) (capture_re c) ->
                        exists v, group mt g = Some v).
  { intros g Ho Hcl. eapply ReFacts.group_set; eassumption. }
  unfold populated, make_record, groups.
  repeat (destruct Hc as [<- | Hc]); [| | | |destruct Hc];
    simpl ngroups; simpl seq; simpl List.map at 2.
  1,2:
    destruct (G 1) as [v1 ->]; [in_program | in_program |];
    destruct (G 2) as [v2 ->]; [in_program | in_program |];
    destruct (G 3) as [v3 ->]; [in_program | in_program |];
    destruct (G 4) as [v4 ->]; [in_program | in_program |];
    split; [reflexivity|];
    repeat (constructor;
            [eexists; split; [reflexivity | apply StripFacts.strip_trimmed]|]);
    constructor.
  1,2:
    destruct (G 1) as [v1 ->]; [in_program | in_program |];
    destruct (G 2) as [v2 ->]; [in_program | in_program |];
    destruct (G 3) as [v3 ->]; [in_program | in_program |];
    split; [reflexivity|];
    repeat (constructor;
            [eexists; split; [reflexivity | apply StripFacts.strip_trimmed]|]);
    constructor.
Qed.

End ParseFacts.

(** ** Lines of the form [10/5/23, 14:02 - Alice: Hello there] *)

Module Layout.

Lemma decimal_differs c x :
  isdecimal c = true -> isdecimal x = false -> char_eqb c x = false.
Proof.
  intros Hc Hx. unfold char_eqb. destruct (N.eqb_spec c x); [|reflexivity].
  subst. rewrite Hc in Hx. discriminate.
Qed.

Lemma digits_except x lo hi d :
  isdecimal x = false -> digits lo hi d ->
  Forall (fun c => mem (Except x) c = true) d.
Proof.
  intros Hx [_ H]. eapply Forall_impl; [|exact H].
  intros c Hc. simpl. rewrite (@decimal_differs c x Hc Hx). reflexivity.
Qed.

Lemma digits_mem lo hi d :
  digits lo hi d -> Forall (fun c => mem Digit c = true) d.
Proof. intros [_ H]. exact H. Qed.

Lemma differs_except x u :
  Forall (fun c => c <> x) u -> Forall (fun c => mem (Except x) c = true) u.
Proof.
  intros H. eapply Forall_impl; [|exact H].
  intros c Hc. simpl. unfold char_eqb.
  destruct (N.eqb_spec c x); [contradiction | reflexivity].
Qed.

Lemma differs_any u :
  Forall (fun c => c <> newline) u -> Forall (fun c => mem Any c = true) u.
Proof.
  intros H. eapply Forall_impl; [|exact H].
  intros c Hc. simpl. unfold char_eqb.
  destruct (N.eqb_spec c newline); [contradiction | reflexivity].
Qed.

Lemma layout_nonempty line : layout line -> line <> [].
Proof.
  intros [d1 d2 d3 h mi user message [[H1 _] _] _ _ _ _ _ _ _].
  destruct d1; simpl in *; [lia | discriminate].
Qed.

(** A line of the layout starts with a digit, so no pattern that starts
    with a bracket matches it. *)
Lemma layout_no_bracket line prog :
  layout line -> matches (Bol :: L "[" :: prog) line = false.
Proof.
  intros [d1 d2 d3 h mi user message [[H1 _] D1] _ _ _ _ _ _ _].
  destruct d1 as [|c d1]; simpl in H1; [lia|].
  inversion D1 as [|? ? Hc _]; subst.
  unfold matches, re_match. simpl.
  assert (E : char_eqb c (chr "[") = false)
    by (apply decimal_differs; [exact Hc | reflexivity]).
  rewrite E. reflexivity.
Qed.

Ltac blank :=
  match goal with
  | |- succeeds (Rep ?cs ?lo ?hi ?g :: ?k) (?c :: ?t) =>
      apply (@ReFacts.succeeds_rep cs lo hi g k [c] t);
      [repeat constructor | simpl; lia | intros ? [=] |]
  end.

Ltac nothing :=
  match goal with
  | |- succeeds (Rep ?cs ?lo ?hi ?g :: ?k) ?t =>
      apply (@ReFacts.succeeds_rep cs lo hi g k [] t);
      [constructor | simpl; lia | intros ? [=] |]
  end.

Ltac pieces :=
  repeat first [apply Forall_app; split | apply Forall_cons | apply Forall_nil];
  first [reflexivity | eapply digits_except; [|eassumption]; reflexivity].

Ltac letter := apply ReFacts.succeeds_one; [reflexivity|].

Ltac bounded H :=
  apply ReFacts.succeeds_rep;
  [exact (@digits_mem _ _ _ H) | destruct H as [? _]; lia
   | intros ? [= <-]; destruct H as [? _]; lia |].

Lemma succeeds_eq prog t t' :
  t = t' -> succeeds prog t' -> succeeds prog t.
Proof. intros ->. auto. Qed.

(** The shape test of [date_time_dash_user] passes on a line of the
    layout. *)
Lemma layout_test line :
  layout line -> matches (test_re date_time_dash_user) line = true.
Proof.
  intros [d1 d2 d3 h mi user message D1 D2 D3 Dh Dm Hu Hc Hm].
  apply ReFacts.matches_bol.
  cbv [range star plus L not_chr]. simpl app.
  bounded D1. letter. bounded D2. letter. bounded D3. letter. blank.
  bounded Dh. letter. bounded Dm. blank. letter. blank.
  apply ReFacts.succeeds_rep;
    [apply differs_except; exact Hc
    | destruct user; simpl; [contradiction | lia] | intros ? [=] |].
  letter. blank.
  rewrite <- (app_nil_r message).
  apply ReFacts.succeeds_rep;
    [apply differs_any; exact Hm | lia | intros ? [=] |].
  apply ReFacts.succeeds_nil.
Qed.

(** Its capture expression matches the line too. *)
Lemma layout_capture line :
  layout line -> matches (capture_re date_time_dash_user) line = true.
Proof.
  intros [d1 d2 d3 h mi user message D1 D2 D3 Dh Dm Hu Hc Hm].
  apply ReFacts.matches_bol.
  cbv [range star plus L not_chr op cl]. simpl app.
  apply ReFacts.succeeds_mark.
  apply (@succeeds_eq _ _
    ((d1 ++ 47 :: d2 ++ 47 :: d3) ++ 44 :: 32 ::
     (h ++ 58 :: mi ++ [32]) ++ 45 :: 32 ::
     user ++ 58 :: 32 :: message ++ [])%N).
  { rewrite app_nil_r. repeat (rewrite <- app_assoc; simpl app).
    reflexivity. }
  apply ReFacts.succeeds_rep.
  { pieces. }
  { destruct D1 as [[? _] _]. rewrite length_app. lia. }
  { intros ? [=]. }
  apply ReFacts.succeeds_mark. letter. blank.
  apply ReFacts.succeeds_mark.
  apply ReFacts.succeeds_rep.
  { pieces. }
  { destruct Dh as [[? _] _]. rewrite length_app. lia. }
  { intros ? [=]. }
  apply ReFacts.succeeds_mark. nothing. letter. blank.
  apply ReFacts.succeeds_mark.
  apply ReFacts.succeeds_rep;
    [apply differs_except; exact Hc
    | destruct user; simpl; [contradiction | lia] | intros ? [=] |].
  apply ReFacts.succeeds_mark. letter. blank.
  apply ReFacts.succeeds_mark.
  apply ReFacts.succeeds_rep;
    [apply differs_any; exact Hm | lia | intros ? [=] |].
  apply ReFacts.succeeds_mark. apply ReFacts.succeeds_eol.
Qed.

End Layout.

(** ** The threshold and the order of the table *)

Module Selection.

Lemma accepts_cons c l0 ls :
  accepts c (l0 :: ls) =
  matches (test_re c) l0 &&
  exceeds (count_matches (capture_re c) (l0 :: ls)) (len (l0 :: ls)).
Proof.
  unfold accepts, exceeds. simpl first_line.
  destruct (true_div _ _); [reflexivity | rewrite andb_false_r; reflexivity].
Qed.

(** Eighteen of twenty is nine tenths, which does not exceed [0.9]; one of
    one does, none of one does not. *)
Lemma exceeds_18_20 : exceeds 18 20 = false.
Proof. vm_compute. reflexivity. Qed.

Lemma exceeds_1_1 : exceeds 1 1 = true.
Proof. vm_compute. reflexivity. Qed.

Lemma exceeds_0_1 : exceeds 0 1 = false.
Proof. vm_compute. reflexivity. Qed.

(** A sample of up to twenty lines that all match is accepted. *)
Lemma exceeds_all k :
  1 <= k <= 20 -> exceeds (Z.of_nat k) (Z.of_nat k) = true.
Proof.
  intros H.
  assert (A : forallb (fun k => exceeds (Z.of_nat k) (Z.of_nat k)) (seq 1 20)
              = true) by (vm_compute; reflexivity).
  rewrite forallb_forall in A. apply A. apply in_seq. lia.
Qed.

(** The loop returns the first candidate of the table that accepts. *)
Lemma try_patterns_find table sample :
  sample <> [] ->
  outcome (try_patterns table sample) =
  match find (fun c => accepts c sample) table with
  | Some c => Return (chosen c)
  | None => Return not_found
  end.
Proof.
  intros Hne. induction table as [|c rest IH]; [reflexivity|].
  simpl find. destruct (accepts c sample) eqn:E.
  - rewrite InferFacts.try_patterns_accept by exact E. reflexivity.
  - rewrite InferFacts.try_patterns_reject by assumption. exact IH.
Qed.

Lemma find_first {A} (f : A -> bool) l : forall i x,
  nth_error l i = Some x -> f x = true ->
  exists k y, k <= i /\ nth_error l k = Some y /\ f y = true /\
              find f l = Some y /\
              (forall k' y', k' < k -> nth_error l k' = Some y' ->
                             f y' = false).
Proof.
  induction l as [|a l IH]; intros i x Hi Hx.
  - destruct i; discriminate.
  - simpl find. destruct (f a) eqn:Fa.
    + exists 0, a. repeat split; try lia; auto.
    + destruct i as [|i]; simpl in Hi.
      * injection Hi as ->. rewrite Hx in Fa. discriminate.
      * destruct (IH _ _ Hi Hx) as (k & y & Hk & Hn & Fy & Hf & Hfirst).
        exists (S k), y. repeat split; try lia; auto.
        intros [|k'] y' Hlt Hy'; simpl in Hy'.
        -- injection Hy' as <-. exact Fa.
        -- apply (Hfirst k'); [lia | exact Hy'].
Qed.

(** The entries of the table answer with different formats. *)
Lemma table_index a c :
  nth_error patterns_to_try a = Some c ->
  (a = 0 /\ c = bracket_datetime_user) \/
  (a = 1 /\ c = date_time_dash_user) \/
  (a = 2 /\ c = bracket_timestamp_user) \/
  (a = 3 /\ c = timestamp_dash_user).
Proof.
  destruct a as [|[|[|[|a]]]]; simpl; intros H.
  5: destruct a; discriminate H.
  all: injection H as <-; tauto.
Qed.

Lemma table_distinct a b ca cb :
  nth_error patterns_to_try a = Some ca ->
  nth_error patterns_to_try b = Some cb ->
  chosen ca = chosen cb -> a = b.
Proof.
  intros Ha Hb.
  destruct (table_index _ _ Ha) as [[-> ->]|[[-> ->]|[[-> ->]|[-> ->]]]];
    destruct (table_index _ _ Hb) as [[-> ->]|[[-> ->]|[[-> ->]|[-> ->]]]];
    intros H; try reflexivity; cbv in H; discriminate H.
Qed.

End Selection.

(** ** Reading that fails, lines that yield records *)

Module StreamFacts.

Lemma read_sample_broken ls e : forall n acc,
  List.length ls < n ->
  read_sample (lines_then ls (Broken e)) n acc = Raise e.
Proof.
  induction ls as [|l ls IH]; intros n acc Hn; simpl in Hn.
  - destruct n; [lia | reflexivity].
  - destruct n as [|n]; [lia|]. simpl. apply IH. lia.
Qed.

Lemma sample_of_blank n ls :
  Forall (fun l => strip l = []) (firstn n ls) -> sample_of n ls = [].
Proof.
  unfold sample_of. induction 1 as [|l t Hl _ IH]; [reflexivity|].
  simpl. rewrite Hl. simpl. exact IH.
Qed.

Lemma sample_of_length n ls : List.length (sample_of n ls) <= n.
Proof.
  unfold sample_of.
  pose proof (filter_length_le truthy (List.map strip (firstn n ls))) as H.
  rewrite length_map in H. pose proof (firstn_le_length n ls). lia.
Qed.

(** With a format of the table, a line yields a record exactly when the
    capture expression matches its stripped form. *)
Lemma parse_line_count c l :
  In c patterns_to_try ->
  List.length (parse_line (capture_re c) (cols c) l) =
  if matches (capture_re c) (strip l) then 1 else 0.
Proof.
  intros Hc. unfold parse_line. destruct (strip l) as [|x t] eqn:E.
  - simpl. rewrite (ParseFacts.table_rejects_empty _ Hc). reflexivity.
  - simpl. unfold matches.
    destruct (re_match (capture_re c) (x :: t)); reflexivity.
Qed.

Lemma records_populated c ls :
  In c patterns_to_try ->
  Forall (populated (cols c)) (records_of (capture_re c) (cols c) ls).
Proof.
  intros Hc. apply Forall_forall. intros r Hr.
  unfold records_of in Hr. apply in_flat_map in Hr as (l & _ & Hr).
  apply ParseFacts.parse_line_inv in Hr as (mt & Hm & ->).
  eapply ParseFacts.make_record_populated; eassumption.
Qed.

End StreamFacts.

(** * The claims *)

(** ** C1: a read that raises during extraction *)

(** C1, as the code has it: when a read raises while
    [parse_chat_with_pattern] iterates over the lines, the exception is
    caught inside the function, one message is printed, and the call
    returns normally with the records of the lines read before the failure;
    nothing is discarded and nothing is signalled to the caller. *)
Theorem C1_partial_records_returned fs file_path pattern columns ls e :
  fs file_path = Handle (lines_then ls (Broken e)) ->
  parse_chat_with_pattern fs file_path pattern columns =
    ([if is_file_not_found e then ParseFileNotFound file_path
      else UnexpectedError e],
     Return (records_of pattern columns ls)).
Proof.
  intros H. unfold parse_chat_with_pattern.
  rewrite H, ParseFacts.iterate_lines. simpl.
  destruct (is_file_not_found e); reflexivity.
Qed.

(** One message is read before [UnicodeDecodeError] is raised. *)
Lemma C1_partial_records_witness :
  chat_cut_short chat_txt =
    Handle (lines_then [physical hello] (Broken UnicodeDecodeError)) /\
  parse_chat_with_pattern chat_cut_short chat_txt
    (capture_re date_time_dash_user) (cols date_time_dash_user) =
    ([UnexpectedError UnicodeDecodeError],
     Return (records_of (capture_re date_time_dash_user)
               (cols date_time_dash_user) [physical hello])).
Proof.
  split; [reflexivity|].
  apply (C1_partial_records_returned chat_cut_short chat_txt
           (capture_re date_time_dash_user) (cols date_time_dash_user)
           [physical hello] UnicodeDecodeError).
  reflexivity.
Defined.

(** C1 fails as stated: on a file that yields one message and then raises
    [UnicodeDecodeError], the call does not fail and does not discard the
    record built so far; it returns the one-record sequence. *)
Lemma C1_counterexample :
  chat_cut_short chat_txt =
    Handle (Line (physical hello) (Broken UnicodeDecodeError)) /\
  outcome (parse_chat_with_pattern chat_cut_short chat_txt
             (capture_re date_time_dash_user) (cols date_time_dash_user)) =
  Return [ [ (lit "Date", text "10/5/23"); (lit "Time", text "14:02");
             (lit "User", text "Alice");
             (lit "Message", text "Hello there") ] ].
Proof. split; [reflexivity | vm_compute; reflexivity]. Qed.

(** ** C2: an input that cannot be opened or read *)

(** C2, as the code has it: when the file cannot be opened, or a read
    raises within the first [lines_to_sample] physical lines,
    [auto_generate_pattern] prints a message and returns [(None, None)]
    without raising; that is the very value it returns when the sample was
    read and no candidate accepted it, so the caller can tell the two apart
    only by what was printed. *)
Theorem C2_unreadable_returns_none_pair fs file_path n e :
  (fs file_path = Denied e \/
   exists ls, fs file_path = Handle (lines_then ls (Broken e)) /\
              List.length ls < Z.to_nat n) ->
  auto_generate_pattern fs file_path n =
    ([Analyzing n;
      if is_file_not_found e then SampleFileNotFound file_path
      else ErrorReadingFile e], Return (None, None)) /\
  (forall fs' file_path' n' sample,
     open_and_sample fs' file_path' n' = Return sample ->
     Forall (fun c => accepts c sample = false) patterns_to_try ->
     outcome (auto_generate_pattern fs' file_path' n') =
     outcome (auto_generate_pattern fs file_path n)).
Proof.
  intros H.
  assert (R : open_and_sample fs file_path n = Raise e).
  { unfold open_and_sample.
    destruct H as [-> | (ls & -> & Hn)]; [reflexivity|].
    apply StreamFacts.read_sample_broken. exact Hn. }
  pose proof (InferFacts.auto_generate_pattern_raised _ _ _ _ R) as E.
  split; [exact E|].
  intros fs' file_path' n' sample Hs Hrej. rewrite E.
  rewrite InferFacts.outcome_pair. destruct sample as [|l0 ls'].
  - rewrite (InferFacts.auto_generate_pattern_empty _ _ _ Hs). reflexivity.
  - rewrite (InferFacts.auto_generate_pattern_sampled _ _ _ _ Hs)
      by discriminate.
    rewrite InferFacts.outcome_pair.
    apply InferFacts.try_patterns_none; [discriminate | exact Hrej].
Qed.

(** A missing file, and a readable file that no candidate accepts. *)
Lemma C2_unreadable_witness :
  auto_generate_pattern no_chat chat_txt 20 =
    ([Analyzing 20; SampleFileNotFound chat_txt], Return (None, None)) /\
  outcome (auto_generate_pattern chat_of_noise chat_txt 20) =
  outcome (auto_generate_pattern no_chat chat_txt 20).
Proof.
  destruct (C2_unreadable_returns_none_pair no_chat chat_txt 20
              FileNotFoundError (or_introl eq_refl)) as [A B].
  split; [exact A|].
  apply (B chat_of_noise chat_txt 20%Z
           [lit "Messages are end-to-end encrypted"; lit "hello world"]).
  - vm_compute. reflexivity.
  - repeat constructor.
Defined.

(** C2 fails as stated: a missing file and a readable file in no known
    format end in the same returned value, [(None, None)], and the missing
    file is reported by printing only. *)
Lemma C2_counterexample :
  outcome (auto_generate_pattern no_chat chat_txt 20) = Return (None, None) /\
  outcome (auto_generate_pattern chat_of_noise chat_txt 20)
    = Return (None, None) /\
  stdout (auto_generate_pattern no_chat chat_txt 20)
    = [Analyzing 20; SampleFileNotFound chat_txt].
Proof. repeat split; vm_compute; reflexivity. Qed.

(** ** C4: the threshold is strict *)

(** C4: whatever the candidate and the candidates after it, on a sample of
    twenty lines of which its capture expression matches exactly eighteen
    the candidate is not accepted, and the loop goes on with the next
    candidate: the call ends as the loop over the remaining candidates
    does. *)
Theorem C4_nine_tenths_is_rejected c rest sample :
  List.length sample = 20 ->
  count_matches (capture_re c) sample = 18%Z ->
  try_patterns (c :: rest) sample =
    ((if matches (test_re c) (hd [] sample)
      then [PotentialPattern (pattern_name c); Inconsistent (pattern_name c)]
      else []) ++ stdout (try_patterns rest sample),
     outcome (try_patterns rest sample)).
Proof.
  intros Hlen Hcount.
  assert (Hne : sample <> []) by (intros ->; discriminate).
  apply InferFacts.try_patterns_reject; [exact Hne|].
  destruct sample as [|l0 ls]; [contradiction|].
  rewrite Selection.accepts_cons, Hcount. unfold len. rewrite Hlen.
  change (Z.of_nat 20) with 20%Z. rewrite Selection.exceeds_18_20.
  apply andb_false_r.
Qed.

(** Eighteen messages and two notices, from the second candidate on. *)
Lemma C4_nine_tenths_witness :
  List.length sample_with_two_notices = 20 /\
  count_matches (capture_re date_time_dash_user) sample_with_two_notices
    = 18%Z /\
  try_patterns [date_time_dash_user; bracket_timestamp_user;
                timestamp_dash_user] sample_with_two_notices =
    ([PotentialPattern (pattern_name date_time_dash_user);
      Inconsistent (pattern_name date_time_dash_user)] ++
     stdout (try_patterns [bracket_timestamp_user; timestamp_dash_user]
               sample_with_two_notices),
     outcome (try_patterns [bracket_timestamp_user; timestamp_dash_user]
                sample_with_two_notices)).
Proof.
  split; [reflexivity|]. split; [vm_compute; reflexivity|].
  apply (C4_nine_tenths_is_rejected date_time_dash_user
           [bracket_timestamp_user; timestamp_dash_user]
           sample_with_two_notices).
  - reflexivity.
  - vm_compute. reflexivity.
Defined.

(** ** C5: a sample of one line *)

(** C5, as the code has it: on a sample of one line, a candidate the loop
    reaches is accepted exactly when the line passes its shape test and
    matches its capture expression; otherwise the loop goes on with the
    next candidate. *)
Theorem C5_single_line_sample c rest line :
  try_patterns (c :: rest) [line] =
    if matches (test_re c) line && matches (capture_re c) line
    then ([PotentialPattern (pattern_name c);
           ConsistentPattern (pattern_name c); RegexIs (capture_re c)],
          Return (Some (capture_re c), Some (cols c)))
    else ((if matches (test_re c) line
           then [PotentialPattern (pattern_name c);
                 Inconsistent (pattern_name c)]
           else []) ++ stdout (try_patterns rest [line]),
          outcome (try_patterns rest [line])).
Proof.
  assert (A : accepts c [line] =
              matches (test_re c) line && matches (capture_re c) line).
  { rewrite Selection.accepts_cons. simpl count_matches.
    destruct (matches (capture_re c) line).
    - change (exceeds (1 + 0) (len [line])) with (exceeds 1 1).
      rewrite Selection.exceeds_1_1. reflexivity.
    - change (exceeds (0 + 0) (len [line])) with (exceeds 0 1).
      rewrite Selection.exceeds_0_1. reflexivity. }
  rewrite <- A. destruct (accepts c [line]) eqn:E.
  - apply InferFacts.try_patterns_accept. exact E.
  - apply InferFacts.try_patterns_reject; [discriminate | exact E].
Qed.

(** C5 fails as stated: the line [abc, def - Bob: hi] fully matches the
    capture expression of [date_time_dash_user], yet on the sample made of
    that line alone inference does not accept that candidate, whose shape
    test the line fails; it returns [timestamp_dash_user]. *)
Lemma C5_counterexample :
  matches (capture_re date_time_dash_user) (lit "abc, def - Bob: hi") = true /\
  matches (test_re date_time_dash_user) (lit "abc, def - Bob: hi") = false /\
  open_and_sample chat_of_words chat_txt 20 =
    Return [lit "abc, def - Bob: hi"] /\
  outcome (auto_generate_pattern chat_of_words chat_txt 20) =
    Return (Some (capture_re timestamp_dash_user),
            Some [lit "Timestamp"; lit "User"; lit "Message"]).
Proof. repeat split; vm_compute; reflexivity. Qed.

(** ** C3: twenty lines like [10/5/23, 14:02 - Alice: Hello there] *)

(** C3, as the code has it: when the sampled lines of the first twenty
    physical lines all have the layout of
    [10/5/23, 14:02 - Alice: Hello there], inference selects
    [date_time_dash_user], the second candidate in priority order, and
    extraction over the whole file returns one record for each line its
    capture expression matches, in line order, each with the fields
    [Date], [Time], [User] and [Message], all present with a stripped
    text. *)
Theorem C3_layout_selects_date_time fs file_path ls :
  fs file_path = Handle (lines_then ls Eof) ->
  sample_of 20 ls <> [] ->
  Forall layout (sample_of 20 ls) ->
  outcome (auto_generate_pattern fs file_path 20) =
    Return (Some (capture_re date_time_dash_user),
            Some [lit "Date"; lit "Time"; lit "User"; lit "Message"]) /\
  parse_chat_with_pattern fs file_path
    (capture_re date_time_dash_user) (cols date_time_dash_user) =
    ([], Return (records_of (capture_re date_time_dash_user)
                   (cols date_time_dash_user) ls)) /\
  (forall l,
     List.length (parse_line (capture_re date_time_dash_user)
                    (cols date_time_dash_user) l) =
     if matches (capture_re date_time_dash_user) (strip l) then 1 else 0) /\
  Forall (populated [lit "Date"; lit "Time"; lit "User"; lit "Message"])
    (records_of (capture_re date_time_dash_user)
       (cols date_time_dash_user) ls).
Proof.
  intros Hfs Hne Hlay.
  assert (Hin : In date_time_dash_user patterns_to_try)
    by (right; left; reflexivity).
  split; [|split; [|split]].
  - assert (Hs : open_and_sample fs file_path 20 = Return (sample_of 20 ls)).
    { unfold open_and_sample. rewrite Hfs.
      change (Z.to_nat 20) with 20.
      rewrite InferFacts.read_sample_whole. reflexivity. }
    rewrite (InferFacts.auto_generate_pattern_sampled _ _ _ _ Hs Hne).
    rewrite InferFacts.outcome_pair.
    pose proof (StreamFacts.sample_of_length 20 ls) as Hlen.
    destruct (sample_of 20 ls) as [|l0 rest] eqn:E; [contradiction|].
    assert (H0 : layout l0) by (inversion Hlay; assumption).
    apply (InferFacts.try_patterns_first [bracket_datetime_user]
             date_time_dash_user
             [bracket_timestamp_user; timestamp_dash_user]).
    + constructor; [|constructor]. rewrite Selection.accepts_cons.
      change (test_re bracket_datetime_user)
        with (Bol :: L "[" :: List.tl (List.tl (test_re bracket_datetime_user))).
      rewrite (Layout.layout_no_bracket _ _ H0). reflexivity.
    + rewrite Selection.accepts_cons, (Layout.layout_test _ H0).
      rewrite InferFacts.count_matches_all.
      * unfold len. apply Selection.exceeds_all. simpl in *. lia.
      * eapply Forall_impl; [|exact Hlay]. apply Layout.layout_capture.
  - apply ParseFacts.parse_readable. exact Hfs.
  - intros l. apply StreamFacts.parse_line_count. exact Hin.
  - apply (StreamFacts.records_populated date_time_dash_user ls Hin).
Qed.

Ltac message_line mi user message :=
  change (layout
            (lit "10" ++ lit "/" ++ lit "5" ++ lit "/" ++ lit "23" ++
             lit ", " ++ lit "14" ++ lit ":" ++ lit mi ++ lit " - " ++
             lit user ++ lit ": " ++ lit message));
  apply layout_line;
  [ split; [simpl; lia | repeat constructor]
  | split; [simpl; lia | repeat constructor]
  | split; [simpl; lia | repeat constructor]
  | split; [simpl; lia | repeat constructor]
  | split; [simpl; lia | repeat constructor]
  | discriminate
  | repeat (apply Forall_cons; [discriminate|]); apply Forall_nil
  | repeat (apply Forall_cons; [discriminate|]); apply Forall_nil ].

Local Open Scope string_scope.

(** The twenty messages of the example file. *)
Lemma C3_layout_witness :
  outcome (auto_generate_pattern chat_of_twenty chat_txt 20) =
    Return (Some (capture_re date_time_dash_user),
            Some [lit "Date"; lit "Time"; lit "User"; lit "Message"]) /\
  Forall (populated [lit "Date"; lit "Time"; lit "User"; lit "Message"])
    (records_of (capture_re date_time_dash_user)
       (cols date_time_dash_user) (List.map physical twenty_messages)).
Proof.
  assert (S : sample_of 20 (List.map physical twenty_messages)
              = List.map lit twenty_messages) by (vm_compute; reflexivity).
  destruct (C3_layout_selects_date_time chat_of_twenty chat_txt
              (List.map physical twenty_messages))
    as (A & _ & _ & B).
  - reflexivity.
  - rewrite S. discriminate.
  - rewrite S. unfold twenty_messages. simpl List.map.
    repeat apply Forall_cons; [> .. | apply Forall_nil].
    + message_line "02" "Alice" "Hello there".
    + message_line "03" "Bob" "Hi Alice".
    + message_line "04" "Carol" "How are you?".
    + message_line "05" "Dan" "Fine, thanks".
    + message_line "06" "Alice" "Lunch at 12:30?".
    + message_line "07" "Bob" "Sure - where?".
    + message_line "08" "Carol" "The usual place".
    + message_line "09" "Dan" "See you there".
    + message_line "10" "Alice" "Running late".
    + message_line "11" "Bob" "No problem".
    + message_line "12" "Carol" "Almost there".
    + message_line "13" "Dan" "I got a table".
    + message_line "14" "Alice" "Ordering now".
    + message_line "15" "Bob" "Coffee for me".
    + message_line "16" "Carol" "Same here".
    + message_line "17" "Dan" "Thanks!".
    + message_line "18" "Alice" "That was good".
    + message_line "19" "Bob" "See you tomorrow".
    + message_line "20" "Carol" "Bye".
    + message_line "21" "Dan" "Good night".
  - split; [exact A | exact B].
Defined.

Local Close Scope string_scope.

(** C3 fails as stated: on twenty such lines the format selected is the
    one with the four fields [Date], [Time], [User], [Message], not the
    three-field [Timestamp - User: Message] format, and the records have
    no field [Timestamp]. *)
Lemma C3_counterexample :
  outcome (auto_generate_pattern chat_of_twenty chat_txt 20) =
    Return (Some (capture_re date_time_dash_user),
            Some [lit "Date"; lit "Time"; lit "User"; lit "Message"]) /\
  exists first others,
    outcome (parse_chat_with_pattern chat_of_twenty chat_txt
               (capture_re date_time_dash_user)
               (cols date_time_dash_user)) = Return (first :: others) /\
    List.length others = 19 /\
    first = [ (lit "Date", text "10/5/23"); (lit "Time", text "14:02");
              (lit "User", text "Alice");
              (lit "Message", text "Hello there") ] /\
    dict_get (lit "Timestamp") first = None.
Proof.
  split; [vm_compute; reflexivity|].
  eexists. eexists. split; [vm_compute; reflexivity|].
  split; [reflexivity|]. split; reflexivity.
Qed.

(** ** C7: lines that do not match are skipped *)

(** C7: with a format of the table, on a file of five lines of which the
    capture expression matches the first, third and fifth and not the
    second and fourth, extraction prints nothing and returns exactly the
    three records of lines 1, 3 and 5, in that order; and on any readable
    file the records come in line order, a line that is empty or does not
    match adding none. *)
Theorem C7_unmatched_lines_skipped c fs file_path l1 l2 l3 l4 l5 :
  In c patterns_to_try ->
  fs file_path = Handle (lines_then [l1; l2; l3; l4; l5] Eof) ->
  matches (capture_re c) (strip l1) = true ->
  matches (capture_re c) (strip l2) = false ->
  matches (capture_re c) (strip l3) = true ->
  matches (capture_re c) (strip l4) = false ->
  matches (capture_re c) (strip l5) = true ->
  (exists m1 m3 m5,
     re_match (capture_re c) (strip l1) = Some m1 /\
     re_match (capture_re c) (strip l3) = Some m3 /\
     re_match (capture_re c) (strip l5) = Some m5 /\
     parse_chat_with_pattern fs file_path (capture_re c) (cols c) =
       ([], Return [ make_record (capture_re c) (cols c) m1;
                     make_record (capture_re c) (cols c) m3;
                     make_record (capture_re c) (cols c) m5 ])) /\
  (forall fs' file_path' before l after,
     fs' file_path' = Handle (lines_then (before ++ l :: after) Eof) ->
     parse_chat_with_pattern fs' file_path' (capture_re c) (cols c) =
       ([], Return (records_of (capture_re c) (cols c) before ++
                    parse_line (capture_re c) (cols c) l ++
                    records_of (capture_re c) (cols c) after)) /\
     (strip l = [] \/ matches (capture_re c) (strip l) = false ->
      parse_line (capture_re c) (cols c) l = [])).
Proof.
  intros Hc Hfs H1 H2 H3 H4 H5. split.
  - assert (N : forall l, matches (capture_re c) (strip l) = true ->
                          strip l <> []).
    { intros l Hl E. rewrite E, (ParseFacts.table_rejects_empty c Hc) in Hl.
      discriminate. }
    destruct (ReFacts.matches_re_match _ _ H1) as [m1 E1].
    destruct (ReFacts.matches_re_match _ _ H3) as [m3 E3].
    destruct (ReFacts.matches_re_match _ _ H5) as [m5 E5].
    exists m1, m3, m5. repeat split; auto.
    rewrite (ParseFacts.parse_readable _ _ _ _ _ Hfs).
    unfold records_of. simpl flat_map.
    rewrite (ParseFacts.parse_line_match _ _ _ _ (N _ H1) E1).
    rewrite (ParseFacts.parse_line_match _ _ _ _ (N _ H3) E3).
    rewrite (ParseFacts.parse_line_match _ _ _ _ (N _ H5) E5).
    rewrite (ParseFacts.parse_line_skip _ (cols c) l2 (or_intror H2)).
    rewrite (ParseFacts.parse_line_skip _ (cols c) l4 (or_intror H4)).
    reflexivity.
  - intros fs' file_path' before l after Hfs'. split.
    + rewrite (ParseFacts.parse_readable _ _ _ _ _ Hfs').
      unfold records_of. rewrite flat_map_app. reflexivity.
    + apply ParseFacts.parse_line_skip.
Qed.

(** Three messages, a notice and an empty line. *)
Lemma C7_unmatched_lines_witness :
  parse_chat_with_pattern chat_of_five chat_txt
    (capture_re date_time_dash_user) (cols date_time_dash_user) =
  ([], Return
    [ [ (lit "Date", text "10/5/23"); (lit "Time", text "14:02");
        (lit "User", text "Alice"); (lit "Message", text "Hello there") ];
      [ (lit "Date", text "10/5/23"); (lit "Time", text "14:03");
        (lit "User", text "Bob"); (lit "Message", text "Hi Alice") ];
      [ (lit "Date", text "10/5/23"); (lit "Time", text "14:05");
        (lit "User", text "Alice"); (lit "Message", text "Bye") ] ]).
Proof.
  assert (Hc : In date_time_dash_user patterns_to_try)
    by (right; left; reflexivity).
  assert (H1 : matches (capture_re date_time_dash_user)
                 (strip (physical hello)) = true)
    by (vm_compute; reflexivity).
  assert (H2 : matches (capture_re date_time_dash_user)
                 (strip (physical "<Media omitted>")) = false)
    by (vm_compute; reflexivity).
  assert (H3 : matches (capture_re date_time_dash_user)
                 (strip (physical "10/5/23, 14:03 - Bob: Hi Alice")) = true)
    by (vm_compute; reflexivity).
  assert (H4 : matches (capture_re date_time_dash_user)
                 (strip (physical EmptyString)) = false)
    by (vm_compute; reflexivity).
  assert (H5 : matches (capture_re date_time_dash_user)
                 (strip (physical "10/5/23, 14:05 - Alice: Bye")) = true)
    by (vm_compute; reflexivity).
  destruct (C7_unmatched_lines_skipped date_time_dash_user
              chat_of_five chat_txt _ _ _ _ _ Hc eq_refl H1 H2 H3 H4 H5)
    as [(m1 & m3 & m5 & E1 & E3 & E5 & R) _].
  rewrite R. vm_compute in E1, E3, E5.
  injection E1 as <-. injection E3 as <-. injection E5 as <-.
  vm_compute. reflexivity.
Defined.

(** ** C8: the sample *)

(** C8: the sample is made of the first [lines_to_sample] physical lines
    of the file, each stripped, the empty ones dropped, so it holds at
    most [lines_to_sample] lines and later lines play no part; and when
    those physical lines are all empty or whitespace, as in an empty file,
    inference finds no format: it returns [(None, None)]. *)
Theorem C8_sample_of_first_lines fs file_path n ls tail :
  fs file_path = Handle (lines_then ls tail) ->
  (Z.to_nat n <= List.length ls \/ tail = Eof) ->
  open_and_sample fs file_path n =
    Return (filter truthy (List.map strip (firstn (Z.to_nat n) ls))) /\
  List.length (filter truthy (List.map strip (firstn (Z.to_nat n) ls)))
    <= Z.to_nat n /\
  (Forall (Forall (fun c => isspace c = true)) (firstn (Z.to_nat n) ls) ->
   auto_generate_pattern fs file_path n =
     ([Analyzing n; EmptySample], Return (None, None))).
Proof.
  intros Hfs Hn.
  assert (Hs : open_and_sample fs file_path n
               = Return (sample_of (Z.to_nat n) ls)).
  { unfold open_and_sample. rewrite Hfs. destruct Hn as [Hn | ->].
    - rewrite InferFacts.read_sample_lines by exact Hn. reflexivity.
    - rewrite InferFacts.read_sample_whole. reflexivity. }
  split; [exact Hs|].
  split; [apply StreamFacts.sample_of_length|].
  intros Hblank. apply InferFacts.auto_generate_pattern_empty.
  rewrite Hs, StreamFacts.sample_of_blank; [reflexivity|].
  eapply Forall_impl; [|exact Hblank]. apply StripFacts.strip_blank.
Qed.

(** Three lines of whitespace are sampled, the message after them is not. *)
Lemma C8_sample_witness :
  open_and_sample chat_after_blanks chat_txt 3 = Return [] /\
  auto_generate_pattern chat_after_blanks chat_txt 3 =
    ([Analyzing 3; EmptySample], Return (None, None)).
Proof.
  destruct (C8_sample_of_first_lines chat_after_blanks chat_txt 3
              [physical EmptyString; physical "   "; physical EmptyString; physical hello] Eof
              eq_refl (or_intror eq_refl))
    as (A & _ & B).
  split; [exact A|]. apply B. repeat constructor.
Defined.

(** ** C9: fields and groups *)

(** C9: every candidate of the table has as many column names as its
    capture expression has groups, and every record that extraction
    returns with the format of a candidate holds exactly the columns of
    that candidate, in their order, each with a stripped text: no record
    lacks a field. *)
Theorem C9_records_fully_populated c :
  In c patterns_to_try ->
  List.length (cols c) = ngroups (capture_re c) /\
  (forall line mt,
     re_match (capture_re c) line = Some mt ->
     List.length (groups (capture_re c) mt) = List.length (cols c) /\
     Forall (fun g => g <> None) (groups (capture_re c) mt)) /\
  (forall fs file_path records r,
     outcome (parse_chat_with_pattern fs file_path (capture_re c) (cols c))
       = Return records ->
     In r records ->
     keys r = cols c /\
     Forall (fun kv => exists v, snd kv = Some v /\ trimmed v) r).
Proof.
  intros Hc. split; [|split].
  - repeat (destruct Hc as [<- | Hc]; [reflexivity|]). destruct Hc.
  - intros line mt Hm. unfold groups. split.
    + rewrite length_map, length_seq.
      repeat (destruct Hc as [<- | Hc]; [reflexivity|]). destruct Hc.
    + apply Forall_forall. intros g Hg. apply in_map_iff in Hg.
      destruct Hg as (i & <- & Hi). apply in_seq in Hi.
      assert (G : exists v, group mt i = Some v).
      { apply (ReFacts.group_set _ _ _ _ Hm);
          repeat (destruct Hc as [<- | Hc];
                  [simpl in Hi;
                   assert (i = 1 \/ i = 2 \/ i = 3 \/ i = 4) as
                     [-> | [-> | [-> | ->]]] by lia;
                   try (simpl in Hi; lia); ParseFacts.in_program|]);
          destruct Hc. }
      destruct G as [v ->]. discriminate.
  - intros fs file_path records r Hout Hr.
    assert (P : Forall (populated (cols c)) records).
    { unfold parse_chat_with_pattern in Hout.
      destruct (fs file_path) as [e | f].
      - destruct (is_file_not_found e); injection Hout as <-; constructor.
      - destruct (ParseFacts.stream_shape f) as [ls [-> | [e ->]]];
          rewrite ParseFacts.iterate_lines in Hout; simpl in Hout.
        + injection Hout as <-.
          apply StreamFacts.records_populated. exact Hc.
        + destruct (is_file_not_found e); injection Hout as <-;
            apply StreamFacts.records_populated; exact Hc. }
    rewrite Forall_forall in P. exact (P r Hr).
Qed.

(** The record of the example message. *)
Lemma C9_records_witness :
  List.length (cols date_time_dash_user)
    = ngroups (capture_re date_time_dash_user) /\
  keys [ (lit "Date", text "10/5/23"); (lit "Time", text "14:02");
         (lit "User", text "Alice"); (lit "Message", text "Hello there") ]
    = cols date_time_dash_user.
Proof.
  destruct (C9_records_fully_populated date_time_dash_user
              (or_intror (or_introl eq_refl))) as (A & _ & B).
  split; [exact A|].
  set (r := [ (lit "Date", text "10/5/23"); (lit "Time", text "14:02");
              (lit "User", text "Alice");
              (lit "Message", text "Hello there") ]).
  assert (E : outcome (parse_chat_with_pattern chat_cut_short chat_txt
                         (capture_re date_time_dash_user)
                         (cols date_time_dash_user)) = Return [r])
    by (vm_compute; reflexivity).
  exact (proj1 (B chat_cut_short chat_txt [r] r E (or_introl eq_refl))).
Defined.

(** * Further properties of the code *)

(** ** Streams, samples and counts *)

Module MoreFacts.

Lemma str_eqb_eq a : forall b, str_eqb a b = true <-> a = b.
Proof.
  induction a as [|x a IH]; intros [|y b]; simpl; split; intros H;
    try reflexivity; try discriminate.
  - apply andb_prop in H as [H1 H2]. apply N.eqb_eq in H1.
    apply IH in H2. subst. reflexivity.
  - injection H as -> ->. unfold char_eqb. rewrite N.eqb_refl.
    apply IH. reflexivity.
Qed.

Lemma str_eqb_refl a : str_eqb a a = true.
Proof. apply str_eqb_eq. reflexivity. Qed.

Lemma sample_of_cons n l ls :
  sample_of (S n) (l :: ls) =
  (if truthy (strip l) then [strip l] else []) ++ sample_of n ls.
Proof. unfold sample_of. simpl. destruct (truthy (strip l)); reflexivity. Qed.

Lemma sample_of_nil n : sample_of n [] = [].
Proof. unfold sample_of. rewrite firstn_nil. reflexivity. Qed.

(** A sample that could be read is the sample of the lines the stream
    yields. *)
Lemma read_sample_lines_of n : forall f acc s,
  read_sample f n acc = Return s -> s = acc ++ sample_of n (lines_of f).
Proof.
  induction n as [|n IH]; intros f acc s H; simpl in H.
  - injection H as <-. unfold sample_of. simpl. rewrite app_nil_r.
    reflexivity.
  - destruct f as [|l rest|e]; simpl in H.
    + apply IH in H. simpl in H. rewrite sample_of_nil in *. exact H.
    + apply IH in H. simpl lines_of. rewrite sample_of_cons, H.
      destruct (truthy (strip l)); [rewrite <- app_assoc|]; reflexivity.
    + discriminate.
Qed.

Lemma iterate_lines_of pattern columns f : forall acc,
  fst (iterate pattern columns f acc) =
  acc ++ records_of pattern columns (lines_of f).
Proof.
  unfold records_of. induction f as [|l rest IH|e]; intros acc; simpl.
  - rewrite app_nil_r. reflexivity.
  - rewrite IH, <- app_assoc. reflexivity.
  - rewrite app_nil_r. reflexivity.
Qed.

Lemma parse_lines_of fs file_path pattern columns f :
  fs file_path = Handle f ->
  outcome (parse_chat_with_pattern fs file_path pattern columns) =
  Return (records_of pattern columns (lines_of f)).
Proof.
  intros H. unfold parse_chat_with_pattern. rewrite H.
  pose proof (iterate_lines_of pattern columns f []) as E.
  destruct (iterate pattern columns f []) as [recs raised]. simpl in E.
  subst recs. destruct raised as [e|]; [|reflexivity].
  destruct (is_file_not_found e); reflexivity.
Qed.

(** Counting. *)
Lemma count_matches_bounds p sample :
  (0 <= count_matches p sample <= len sample)%Z.
Proof.
  unfold len. induction sample as [|l ls IH]; simpl count_matches.
  - simpl. lia.
  - simpl List.length. rewrite Nat2Z.inj_succ.
    destruct (matches p l); lia.
Qed.

Lemma count_matches_positive p sample :
  (0 < count_matches p sample)%Z ->
  exists line, In line sample /\ matches p line = true.
Proof.
  induction sample as [|l ls IH]; simpl count_matches; [lia|].
  destruct (matches p l) eqn:E.
  - intros _. exists l. split; [left; reflexivity | exact E].
  - intros H. destruct IH as (line & Hin & Hm); [lia|].
    exists line. split; [right; exact Hin | exact Hm].
Qed.

(** No match at all never exceeds the threshold. *)
Lemma exceeds_zero n : exceeds 0 n = false.
Proof.
  unfold exceeds, true_div. destruct (Z.eqb n 0); [reflexivity|].
  change (py_float 0) with (S754_zero false).
  destruct (py_float n) as [s|s| |s m e]; reflexivity.
Qed.

(** Up to a hundred sampled lines, the comparison of the binary64 quotient
    with [0.9] is the comparison of the fractions. *)
Lemma exceeds_fraction m n :
  (0 <= m <= n)%Z -> (1 <= n <= 100)%Z ->
  exceeds m n = (9 * n <? 10 * m)%Z.
Proof.
  intros Hm Hn.
  assert (A : forallb (fun n =>
                forallb (fun m =>
                  Bool.eqb (exceeds (Z.of_nat m) (Z.of_nat n))
                           (9 * Z.of_nat n <? 10 * Z.of_nat m)%Z)
                  (seq 0 (S n)))
              (seq 1 100) = true) by (vm_compute; reflexivity).
  rewrite forallb_forall in A.
  specialize (A (Z.to_nat n)). rewrite forallb_forall in A.
  specialize (A ltac:(apply in_seq; lia) (Z.to_nat m) ltac:(apply in_seq; lia)).
  rewrite !Z2Nat.id in A by lia. apply Bool.eqb_prop in A. exact A.
Qed.

Lemma accepts_nonempty c sample : accepts c sample = true -> sample <> [].
Proof. intros H ->. unfold accepts in H. simpl in H. discriminate. Qed.

(** An accepted candidate matches at least one line of the sample. *)
Lemma accepts_some_line c sample :
  accepts c sample = true ->
  exists line, In line sample /\ matches (capture_re c) line = true.
Proof.
  intros H. pose proof (accepts_nonempty _ _ H) as Hne.
  destruct sample as [|l0 ls]; [contradiction|].
  rewrite Selection.accepts_cons in H. apply andb_prop in H as [_ H].
  apply count_matches_positive.
  pose proof (count_matches_bounds (capture_re c) (l0 :: ls)) as [B _].
  destruct (Z.eq_dec (count_matches (capture_re c) (l0 :: ls)) 0) as [E|E];
    [|lia].
  rewrite E, exceeds_zero in H. discriminate.
Qed.

Lemma in_firstn {A} (x : A) n : forall l, In x (firstn n l) -> In x l.
Proof.
  induction n as [|n IH]; intros [|a l]; simpl; try tauto.
  intros [H | H]; [left; exact H | right; apply IH; exact H].
Qed.

Lemma in_sample_of n ls x :
  In x (sample_of n ls) -> exists l, In l ls /\ x = strip l /\ x <> [].
Proof.
  unfold sample_of. intros H. apply filter_In in H as [H T].
  apply in_map_iff in H as (l & <- & Hl). exists l.
  split; [eapply in_firstn; exact Hl|]. split; [reflexivity|].
  intros E. rewrite E in T. discriminate.
Qed.

(** A returned format is a format of the table that matches the stripped
    form of a line the file yields. *)
Lemma selected_matches_line fs file_path n f pattern columns :
  fs file_path = Handle f ->
  outcome (auto_generate_pattern fs file_path n)
    = Return (Some pattern, Some columns) ->
  exists c l,
    In c patterns_to_try /\ pattern = capture_re c /\ columns = cols c /\
    In l (lines_of f) /\ strip l <> [] /\
    matches (capture_re c) (strip l) = true.
Proof.
  intros Hf Hout.
  destruct (open_and_sample fs file_path n) as [sample | e] eqn:Hs.
  2:{ rewrite (InferFacts.auto_generate_pattern_raised _ _ _ _ Hs) in Hout.
      discriminate. }
  destruct sample as [|l0 ls].
  { rewrite (InferFacts.auto_generate_pattern_empty _ _ _ Hs) in Hout.
    discriminate. }
  rewrite (InferFacts.auto_generate_pattern_sampled _ _ _ _ Hs) in Hout
    by discriminate.
  rewrite InferFacts.outcome_pair in Hout.
  destruct (InferFacts.try_patterns_total patterns_to_try (l0 :: ls))
    as [H | (c & Hc & Ha & H)]; [discriminate | | ].
  { rewrite H in Hout. discriminate. }
  rewrite H in Hout. injection Hout as <- <-.
  destruct (accepts_some_line _ _ Ha) as (line & Hin & Hm).
  unfold open_and_sample in Hs. rewrite Hf in Hs.
  apply read_sample_lines_of in Hs. simpl in Hs. rewrite Hs in Hin.
  apply in_sample_of in Hin as (l & Hl & -> & Hne).
  exists c, l. repeat split; auto.
Qed.

(** A line of the file that matches once stripped yields a record, so the
    call returns at least one. *)
Lemma matching_line_yields_record fs file_path f pattern columns l :
  fs file_path = Handle f ->
  In l (lines_of f) -> strip l <> [] ->
  matches pattern (strip l) = true ->
  exists r records,
    outcome (parse_chat_with_pattern fs file_path pattern columns)
      = Return (r :: records).
Proof.
  intros Hf Hl Hne Hm. rewrite (parse_lines_of _ _ _ _ _ Hf).
  destruct (ReFacts.matches_re_match _ _ Hm) as [mt Hmt].
  assert (R : In (make_record pattern columns mt)
                (records_of pattern columns (lines_of f))).
  { unfold records_of. apply in_flat_map. exists l. split; [exact Hl|].
    rewrite (ParseFacts.parse_line_match _ _ _ _ Hne Hmt).
    left. reflexivity. }
  destruct (records_of pattern columns (lines_of f)) as [|r records];
    [destruct R | eauto].
Qed.

End MoreFacts.

(** ** models/auto_generate_pattern.py, beyond the claims *)

(** X1: with a sample size of zero or less the loop over
    [range(lines_to_sample)] reads nothing, so every file that can be
    opened, whatever it holds, gives the empty sample and [(None, None)]. *)
Theorem X1_nonpositive_sample_size fs file_path n f :
  (n <= 0)%Z ->
  fs file_path = Handle f ->
  auto_generate_pattern fs file_path n =
    ([Analyzing n; EmptySample], Return (None, None)).
Proof.
  intros Hn Hf. apply InferFacts.auto_generate_pattern_empty.
  unfold open_and_sample. rewrite Hf.
  replace (Z.to_nat n) with 0 by lia. reflexivity.
Qed.

(** Twenty well-formed messages, sampled with size zero. *)
Lemma X1_nonpositive_witness :
  auto_generate_pattern chat_of_twenty chat_txt 0 =
    ([Analyzing 0; EmptySample], Return (None, None)).
Proof.
  apply (X1_nonpositive_sample_size chat_of_twenty chat_txt 0%Z
           (lines_then (List.map physical twenty_messages) Eof)).
  - lia.
  - reflexivity.
Defined.

(** X2: inference calls [readline] at most [lines_to_sample] times.  A
    stream is what successive calls of [readline] give; when the first
    [lines_to_sample] calls return the lines [ls], whatever later calls
    would return or raise, the function prints and returns what it does
    on a stream that yields exactly [ls] and then ends. *)
Theorem X2_sampling_ignores_the_rest fs file_path n ls rest tail :
  fs file_path = Handle (lines_then (ls ++ rest) tail) ->
  List.length ls = Z.to_nat n ->
  auto_generate_pattern fs file_path n =
  auto_generate_pattern (fun _ => Handle (lines_then ls Eof)) file_path n.
Proof.
  intros Hf Hn.
  assert (A : open_and_sample fs file_path n
              = Return (sample_of (Z.to_nat n) ls)).
  { unfold open_and_sample. rewrite Hf.
    rewrite InferFacts.read_sample_lines by (rewrite length_app; lia).
    unfold sample_of. rewrite <- Hn, firstn_app, Nat.sub_diag, firstn_all.
    simpl. rewrite app_nil_r. reflexivity. }
  assert (B : open_and_sample (fun _ => Handle (lines_then ls Eof))
                file_path n = Return (sample_of (Z.to_nat n) ls)).
  { unfold open_and_sample. rewrite InferFacts.read_sample_whole.
    reflexivity. }
  unfold auto_generate_pattern. rewrite A, B. reflexivity.
Qed.

(** The twenty messages, sampled with size one. *)
Lemma X2_sampling_witness :
  auto_generate_pattern chat_of_twenty chat_txt 1 =
  auto_generate_pattern (fun _ => Handle (lines_then [physical hello] Eof))
    chat_txt 1.
Proof.
  apply (X2_sampling_ignores_the_rest chat_of_twenty chat_txt 1
           [physical hello]
           (List.tl (List.map physical twenty_messages)) Eof).
  - reflexivity.
  - reflexivity.
Defined.

(** X3: for a sample of one to a hundred lines, a candidate is accepted in
    its turn exactly when its shape test passes on the first line and the
    lines its capture expression matches are more than nine in ten,
    counted in integers: [10 * match_count > 9 * len(sample_lines)];
    otherwise the loop goes on with the next candidate. *)
Theorem X3_threshold_in_integers c rest sample :
  sample <> [] ->
  List.length sample <= 100 ->
  outcome (try_patterns (c :: rest) sample) =
    if matches (test_re c) (hd [] sample) &&
       (9 * len sample <? 10 * count_matches (capture_re c) sample)%Z
    then Return (Some (capture_re c), Some (cols c))
    else outcome (try_patterns rest sample).
Proof.
  intros Hne Hlen. destruct sample as [|l0 ls]; [contradiction|].
  assert (A : accepts c (l0 :: ls) =
              matches (test_re c) l0 &&
              (9 * len (l0 :: ls) <? 10 * count_matches (capture_re c) (l0 :: ls))%Z).
  { rewrite Selection.accepts_cons. f_equal.
    apply MoreFacts.exceeds_fraction.
    - apply MoreFacts.count_matches_bounds.
    - unfold len. simpl List.length in *. lia. }
  simpl hd. rewrite <- A. destruct (accepts c (l0 :: ls)) eqn:E.
  - rewrite InferFacts.try_patterns_accept by exact E. reflexivity.
  - rewrite InferFacts.try_patterns_reject by (discriminate || exact E).
    reflexivity.
Qed.

(** Eighteen messages and two notices: [10 * 18 > 9 * 20] fails. *)
Lemma X3_threshold_witness :
  outcome (try_patterns [date_time_dash_user; timestamp_dash_user]
             sample_with_two_notices) =
  outcome (try_patterns [timestamp_dash_user] sample_with_two_notices).
Proof.
  rewrite (X3_threshold_in_integers date_time_dash_user
             [timestamp_dash_user] sample_with_two_notices).
  - reflexivity.
  - discriminate.
  - change (20 <= 100). lia.
Defined.

(** X4: a format that inference returns comes from the table, and its
    capture expression matches at least one of the sampled lines; so
    extraction with that format over the same file returns at least one
    record, even when a later read raises. *)
Theorem X4_selected_format_yields_records fs file_path n f pattern columns :
  fs file_path = Handle f ->
  outcome (auto_generate_pattern fs file_path n)
    = Return (Some pattern, Some columns) ->
  (exists c, In c patterns_to_try /\
             pattern = capture_re c /\ columns = cols c) /\
  (exists r records,
     outcome (parse_chat_with_pattern fs file_path pattern columns)
       = Return (r :: records)).
Proof.
  intros Hf Hout.
  destruct (MoreFacts.selected_matches_line _ _ _ _ _ _ Hf Hout)
    as (c & l & Hc & -> & -> & Hl & Hne & Hm).
  split.
  - exists c. auto.
  - eapply MoreFacts.matching_line_yields_record; eassumption.
Qed.

(** The example file, whose first message is followed by a failing read. *)
Lemma X4_selected_format_witness :
  (exists c, In c patterns_to_try /\
             capture_re date_time_dash_user = capture_re c /\
             cols date_time_dash_user = cols c) /\
  (exists r records,
     outcome (parse_chat_with_pattern chat_cut_short chat_txt
                (capture_re date_time_dash_user)
                (cols date_time_dash_user)) = Return (r :: records)).
Proof.
  apply (X4_selected_format_yields_records chat_cut_short chat_txt 1
           (Line (physical hello) (Broken UnicodeDecodeError))).
  - reflexivity.
  - vm_compute. reflexivity.
Defined.

(** ** models/parse_chat_with_pattern.py, beyond the claims *)

Module RecordFacts.

Lemma dict_set_fresh k v d :
  ~ In k (keys d) -> dict_set k v d = d ++ [(k, v)].
Proof.
  induction d as [|[k' v'] d IH]; simpl; intros H; [reflexivity|].
  destruct (str_eqb k k') eqn:E.
  - apply MoreFacts.str_eqb_eq in E. subst. tauto.
  - rewrite IH by tauto. reflexivity.
Qed.

Lemma fold_dict_set pairs : forall d,
  NoDup (keys d ++ List.map fst pairs) ->
  fold_left (fun d kv => dict_set (fst kv) (snd kv) d) pairs d = d ++ pairs.
Proof.
  induction pairs as [|[k v] pairs IH]; intros d H; simpl.
  - rewrite app_nil_r. reflexivity.
  - simpl in H. pose proof (NoDup_remove_2 _ _ _ H) as Hk.
    rewrite dict_set_fresh by (intros Hin; apply Hk, in_or_app; tauto).
    rewrite IH.
    + rewrite <- app_assoc. reflexivity.
    + unfold keys. rewrite map_app. simpl. rewrite <- app_assoc. exact H.
Qed.

Lemma keys_combine {B} (ks : list str) : forall (vs : list B) k,
  In k (List.map fst (combine ks vs)) -> In k ks.
Proof.
  induction ks as [|x ks IH]; intros [|v vs] k; simpl; try tauto.
  intros [H | H]; [left; exact H | right; eapply IH; exact H].
Qed.

Lemma nodup_combine {B} (ks : list str) : forall (vs : list B),
  NoDup ks -> NoDup (List.map fst (combine ks vs)).
Proof.
  induction ks as [|x ks IH]; intros [|v vs] H; simpl; try constructor.
  - inversion H; subst. intros Hin. apply keys_combine in Hin. tauto.
  - inversion H; subst. apply IH. assumption.
Qed.

Lemma combine_map_r {A B C} (f : B -> C) (ks : list A) : forall vs,
  List.map (fun kv => (fst kv, f (snd kv))) (combine ks vs) =
  combine ks (List.map f vs).
Proof.
  induction ks as [|k ks IH]; intros [|v vs]; simpl; try reflexivity.
  rewrite IH. reflexivity.
Qed.

(** With distinct names, [dict(zip(columns, groups))] is the zip. *)
Lemma make_record_zip pattern columns mt :
  NoDup columns ->
  make_record pattern columns mt =
  combine columns (List.map (option_map strip) (groups pattern mt)).
Proof.
  intros H. unfold make_record, dict, strip_values.
  rewrite fold_dict_set by (simpl; apply nodup_combine; exact H).
  simpl. apply combine_map_r.
Qed.

End RecordFacts.

(** X5: when the column names are distinct, the record of a matching line
    pairs them with the stripped groups by position, in order; if there
    are more names than groups, or more groups than names, the surplus is
    dropped without an error, so a record has as many fields as the
    shorter of the two. *)
Theorem X5_fields_pair_by_position pattern columns mt :
  NoDup columns ->
  make_record pattern columns mt =
    combine columns (List.map (option_map strip) (groups pattern mt)) /\
  List.length (make_record pattern columns mt) =
    Nat.min (List.length columns) (ngroups pattern).
Proof.
  intros H. rewrite (RecordFacts.make_record_zip pattern columns mt H).
  split; [reflexivity|].
  rewrite length_combine, length_map. unfold groups.
  rewrite length_map, length_seq. reflexivity.
Qed.

(** Two names for the three groups of [timestamp_dash_user]. *)
Lemma X5_fields_pair_witness :
  option_map (make_record (capture_re timestamp_dash_user)
                [lit "When"; lit "Who"])
    (re_match (capture_re timestamp_dash_user)
       (lit "10/5/23, 14:02 - Alice: Hello there")) =
  Some [ (lit "When", text "10/5/23, 14:02"); (lit "Who", text "Alice") ].
Proof.
  destruct (re_match (capture_re timestamp_dash_user)
              (lit "10/5/23, 14:02 - Alice: Hello there")) as [mt|] eqn:E;
    [|vm_compute in E; discriminate E].
  cbv beta iota delta [option_map].
  destruct (X5_fields_pair_by_position (capture_re timestamp_dash_user)
              [lit "When"; lit "Who"] mt) as [A _].
  - repeat constructor; simpl; intros H;
      repeat (destruct H as [H | H]; [discriminate H|]); exact H.
  - rewrite A. vm_compute in E. injection E as <-. reflexivity.
Defined.

(** ** main.py *)

Module ApiFacts.

Import Api.

Lemma write_same disk name f : write disk name f name = Handle f.
Proof. unfold write. rewrite MoreFacts.str_eqb_refl. reflexivity. Qed.

Lemma exists_write disk name f : exists_ (write disk name f) name = true.
Proof. unfold exists_. rewrite write_same. reflexivity. Qed.

Lemma unlink_write disk name f p :
  unlink (write disk name f) name p =
  if str_eqb p name then Denied FileNotFoundError else disk p.
Proof. unfold unlink, write. destruct (str_eqb p name); reflexivity. Qed.

(** [endswith] holds exactly of a text followed by the suffix. *)
Lemma endswith_iff s suffix :
  endswith s suffix = true <-> exists stem, s = stem ++ suffix.
Proof.
  unfold endswith. split.
  - intros H. apply andb_prop in H as [_ H].
    apply MoreFacts.str_eqb_eq in H.
    exists (firstn (List.length s - List.length suffix) s).
    transitivity (firstn (List.length s - List.length suffix) s ++
                  skipn (List.length s - List.length suffix) s).
    + symmetry. apply firstn_skipn.
    + f_equal. exact H.
  - intros [stem ->]. rewrite length_app. apply andb_true_intro. split.
    + apply Nat.leb_le. lia.
    + replace (List.length stem + List.length suffix - List.length suffix)
        with (List.length stem + 0) by lia.
      rewrite skipn_app, Nat.add_0_r, skipn_all.
      replace (List.length stem - List.length stem) with 0 by lia.
      apply MoreFacts.str_eqb_refl.
Qed.

(** The columns of a table entry are never an empty list. *)
Lemma table_columns c : In c patterns_to_try -> truthy_list (cols c) = true.
Proof.
  intros H. repeat (destruct H as [<- | H]; [reflexivity|]). destruct H.
Qed.

(** Steps 3 and 4 when inference finds nothing. *)
Lemma analyse_nothing disk path n :
  outcome (auto_generate_pattern disk path n) = Return (None, None) ->
  snd (analyse_and_parse disk path n) =
  inr (HTTPException 400 NoConsistentChatPattern).
Proof.
  unfold analyse_and_parse, outcome.
  destruct (auto_generate_pattern disk path n) as [out1 r1]. simpl.
  intros ->. reflexivity.
Qed.

(** Steps 3 and 4 when inference finds a format of the table. *)
Lemma analyse_found disk path n c :
  In c patterns_to_try ->
  outcome (auto_generate_pattern disk path n) = Return (chosen c) ->
  exists records,
    outcome (parse_chat_with_pattern disk path (capture_re c) (cols c))
      = Return records /\
    snd (analyse_and_parse disk path n) = inl records.
Proof.
  intros Hc. unfold analyse_and_parse, outcome, chosen.
  destruct (auto_generate_pattern disk path n) as [out1 r1]. simpl.
  intros ->. unfold both. rewrite (table_columns c Hc).
  destruct (parse_chat_with_pattern disk path (capture_re c) (cols c))
    as [out2 r2] eqn:E.
  assert (R : exists records, r2 = Return records).
  { unfold parse_chat_with_pattern in E.
    destruct (match disk path with
              | Denied e => ([], Some e)
              | Handle file => iterate (capture_re c) (cols c) file []
              end) as [recs [e|]].
    - destruct (is_file_not_found e); injection E as _ <-; eauto.
    - injection E as _ <-. eauto. }
  destruct R as [records ->]. exists records. split; reflexivity.
Qed.

(** The result and the files after a call whose upload was stored. *)
Lemma stored_run disk name n upload :
  endswith (filename upload) (lit ".txt") = true ->
  name <> [] ->
  let disk' := write disk name (file upload) in
  result (parse_chat_file disk (Copied name) n upload) =
    match snd (analyse_and_parse disk' name n) with
    | inl chat_records => Returned chat_records
    | inr e => Raised (HTTPException 500 (InternalServerError e))
    end /\
  disk_after (parse_chat_file disk (Copied name) n upload) = unlink disk' name /\
  upload_closed (parse_chat_file disk (Copied name) n upload) = true.
Proof.
  intros He Hn disk'. unfold parse_chat_file. rewrite He. simpl negb.
  cbv iota. fold disk'.
  destruct (analyse_and_parse disk' name n) as [printed tried].
  unfold disk'. rewrite exists_write.
  destruct name as [|x name]; [contradiction|]. simpl truthy. simpl andb.
  cbv iota. destruct tried as [recs | e]; simpl; auto.
Qed.

End ApiFacts.

(** X6: the endpoint answers with status 400 only for a file name that
    is not some text followed by [.txt], and then before anything else
    happens: no file is written, nothing is printed and the upload is not
    closed.  For every other call the upload is closed at the end and the
    answer is either a list of records or status 500. *)
Theorem X6_client_error_only_for_extension disk tmp n upload :
  (~ (exists stem, Api.filename upload = stem ++ lit ".txt") /\
   Api.parse_chat_file disk tmp n upload =
     Api.mkRun (Api.Raised (Api.HTTPException 400 Api.InvalidFileType))
       disk false []) \/
  ((exists stem, Api.filename upload = stem ++ lit ".txt") /\
   Api.upload_closed (Api.parse_chat_file disk tmp n upload) = true /\
   ((exists chat_records,
       Api.result (Api.parse_chat_file disk tmp n upload)
         = Api.Returned chat_records) \/
    (exists cause,
       Api.result (Api.parse_chat_file disk tmp n upload)
         = Api.Raised (Api.HTTPException 500
                         (Api.InternalServerError cause))))).
Proof.
  pose proof (ApiFacts.endswith_iff (Api.filename upload) (lit ".txt")) as S.
  unfold Api.parse_chat_file.
  destruct (Api.endswith (Api.filename upload) (lit ".txt")) eqn:E.
  2:{ left. split; [|reflexivity]. intros H. apply S in H. discriminate. }
  right. split; [apply S; reflexivity|]. simpl negb. cbv iota.
  destruct tmp as [e | name e written | name].
  - simpl. split; [reflexivity | right; eauto].
  - simpl. split; [reflexivity | right; eauto].
  - destruct (Api.analyse_and_parse
                (Api.write disk name (Api.file upload)) name n)
      as [printed [recs | e]];
      destruct (truthy name &&
                Api.exists_ (Api.write disk name (Api.file upload)) name);
      simpl; split; try reflexivity; eauto.
Qed.

(** X7: when the upload is stored and inference finds no format, the
    [HTTPException] with status 400 that the endpoint raises inside its own
    [try] block is caught by [except Exception] there, and the caller gets
    status 500 with that exception as the cause. *)
Theorem X7_no_format_answers_500 disk name n upload :
  Api.endswith (Api.filename upload) (lit ".txt") = true ->
  name <> [] ->
  outcome (auto_generate_pattern
             (Api.write disk name (Api.file upload)) name n)
    = Return (None, None) ->
  Api.result (Api.parse_chat_file disk (Api.Copied name) n upload) =
    Api.Raised
      (Api.HTTPException 500
         (Api.InternalServerError
            (Api.HTTPException 400 Api.NoConsistentChatPattern))).
Proof.
  intros He Hn Hout.
  destruct (ApiFacts.stored_run disk name n upload He Hn) as (R & _ & _).
  rewrite R, (ApiFacts.analyse_nothing _ _ _ Hout). reflexivity.
Qed.

(** An upload in no known format. *)
Lemma X7_no_format_witness :
  Api.result (Api.parse_chat_file empty_disk (Api.Copied tmp_name) 20
                upload_of_noise) =
    Api.Raised
      (Api.HTTPException 500
         (Api.InternalServerError
            (Api.HTTPException 400 Api.NoConsistentChatPattern))).
Proof.
  apply (X7_no_format_answers_500 empty_disk tmp_name 20 upload_of_noise).
  - reflexivity.
  - discriminate.
  - vm_compute. reflexivity.
Defined.

(** X8: when the upload is stored and inference finds a format, the
    endpoint returns what extraction with that format returns for the
    stored file: a list of at least one record, each holding every column
    of one table entry with a stripped text. *)
Theorem X8_found_format_answers_records disk name n upload pattern columns :
  Api.endswith (Api.filename upload) (lit ".txt") = true ->
  name <> [] ->
  outcome (auto_generate_pattern
             (Api.write disk name (Api.file upload)) name n)
    = Return (Some pattern, Some columns) ->
  exists r records,
    Api.result (Api.parse_chat_file disk (Api.Copied name) n upload)
      = Api.Returned (r :: records) /\
    outcome (parse_chat_with_pattern
               (Api.write disk name (Api.file upload)) name pattern columns)
      = Return (r :: records) /\
    Forall (populated columns) (r :: records).
Proof.
  intros He Hn Hout.
  pose proof (ApiFacts.write_same disk name (Api.file upload)) as Hf.
  destruct (MoreFacts.selected_matches_line _ _ _ _ _ _ Hf Hout)
    as (c & l & Hc & -> & -> & Hl & Hne & Hm).
  destruct (MoreFacts.matching_line_yields_record _ _ _ _ (cols c) _
              Hf Hl Hne Hm) as (r & records & Hp).
  exists r, records.
  destruct (ApiFacts.stored_run disk name n upload He Hn) as (R & _ & _).
  destruct (ApiFacts.analyse_found _ _ _ c Hc Hout) as (recs & Hp' & A).
  rewrite Hp in Hp'. injection Hp' as <-.
  rewrite R, A. split; [reflexivity|]. split; [exact Hp|].
  rewrite (MoreFacts.parse_lines_of _ _ _ _ _ Hf) in Hp.
  injection Hp as <-. apply StreamFacts.records_populated. exact Hc.
Qed.

(** The twenty messages, uploaded as [chat.txt]. *)
Lemma X8_found_format_witness :
  exists r records,
    Api.result (Api.parse_chat_file empty_disk (Api.Copied tmp_name) 20
                  upload_of_twenty) = Api.Returned (r :: records) /\
    outcome (parse_chat_with_pattern
               (Api.write empty_disk tmp_name (Api.file upload_of_twenty))
               tmp_name (capture_re date_time_dash_user)
               (cols date_time_dash_user)) = Return (r :: records) /\
    Forall (populated (cols date_time_dash_user)) (r :: records).
Proof.
  apply (X8_found_format_answers_records empty_disk tmp_name 20
           upload_of_twenty).
  - reflexivity.
  - discriminate.
  - vm_compute. reflexivity.
Defined.

(** X9: what a call with a [.txt] upload leaves on disk.  When the upload
    was copied whole, the temporary file is gone at the end and every
    other path is as before, whatever the answer.  When the copy raised,
    the answer is status 500 and the partly written temporary file stays,
    because its name was never recorded.  When no temporary file could be
    created, the answer is status 500 and the disk is as before. *)
Theorem X9_temporary_file_after_the_call disk tmp n upload :
  Api.endswith (Api.filename upload) (lit ".txt") = true ->
  match tmp with
  | Api.Copied name =>
      name <> [] ->
      forall p,
        Api.disk_after (Api.parse_chat_file disk tmp n upload) p =
        if str_eqb p name then Denied FileNotFoundError else disk p
  | Api.CopyInterrupted name e written =>
      Api.result (Api.parse_chat_file disk tmp n upload) =
        Api.Raised (Api.HTTPException 500
                      (Api.InternalServerError (Api.PyError e))) /\
      Api.disk_after (Api.parse_chat_file disk tmp n upload) name
        = Handle written
  | Api.NoTempFile e =>
      Api.result (Api.parse_chat_file disk tmp n upload) =
        Api.Raised (Api.HTTPException 500
                      (Api.InternalServerError (Api.PyError e))) /\
      Api.disk_after (Api.parse_chat_file disk tmp n upload) = disk
  end.
Proof.
  intros He. destruct tmp as [e | name e written | name].
  - unfold Api.parse_chat_file. rewrite He. simpl. split; reflexivity.
  - unfold Api.parse_chat_file. rewrite He. simpl.
    split; [reflexivity | apply ApiFacts.write_same].
  - intros Hn p.
    destruct (ApiFacts.stored_run disk name n upload He Hn) as (_ & D & _).
    rewrite D. apply ApiFacts.unlink_write.
Qed.

(** The twenty messages, copied whole: the temporary file is gone. *)
Lemma X9_temporary_file_witness :
  Api.disk_after (Api.parse_chat_file empty_disk (Api.Copied tmp_name) 20
                    upload_of_twenty) tmp_name
    = Denied FileNotFoundError.
Proof.
  exact (X9_temporary_file_after_the_call empty_disk (Api.Copied tmp_name)
           20 upload_of_twenty eq_refl ltac:(discriminate) tmp_name).
Defined.

(** ** What the patterns of the table ask of a line *)

Module DenoteFacts.

(** The engine finds a match exactly when the text can be cut as the
    program asks. *)
Lemma rep_greedy_sound cs lo hi k s : forall pos n r,
  (forall h, hi = Some h -> n <= h) ->
  rep_greedy cs lo hi k s pos n = Some r ->
  exists u t, s = u ++ t /\ Forall (fun c => mem cs c = true) u /\
              lo <= n + List.length u /\
              (forall h, hi = Some h -> n + List.length u <= h) /\
              k t (pos + List.length u) = Some r.
Proof.
  assert (Stop : forall s pos n r,
            (forall h, hi = Some h -> n <= h) ->
            (if Nat.leb lo n then k s pos else None) = Some r ->
            exists u t, s = u ++ t /\ Forall (fun c => mem cs c = true) u /\
                        lo <= n + List.length u /\
                        (forall h, hi = Some h -> n + List.length u <= h) /\
                        k t (pos + List.length u) = Some r).
  { intros s0 pos n r Hn H. destruct (Nat.leb lo n) eqn:E; [|discriminate].
    apply Nat.leb_le in E. exists [], s0. simpl. rewrite !Nat.add_0_r.
    repeat split; auto. }
  induction s as [|c t IH]; intros pos n r Hn H; simpl in H.
  - apply Stop; assumption.
  - destruct (mem cs c && below hi n) eqn:E; [|apply Stop; assumption].
    destruct (rep_greedy cs lo hi k t (S pos) (S n)) as [r'|] eqn:R;
      [|apply Stop; assumption].
    injection H as <-. apply andb_prop in E as [Hc Hb].
    assert (Hn' : forall h, hi = Some h -> S n <= h).
    { intros h Hh. subst hi. simpl in Hb. apply Nat.ltb_lt in Hb. lia. }
    destruct (IH _ _ _ Hn' R) as (u & t' & -> & Hu & Hlo & Hhi & Hk).
    exists (c :: u), t'. simpl. repeat split; auto; try lia.
    + intros h Hh. specialize (Hhi h Hh). lia.
    + replace (pos + S (List.length u)) with (S pos + List.length u) by lia.
      exact Hk.
Qed.

Lemma rep_lazy_sound cs lo hi k s : forall pos n r,
  (forall h, hi = Some h -> n <= h) ->
  rep_lazy cs lo hi k s pos n = Some r ->
  exists u t, s = u ++ t /\ Forall (fun c => mem cs c = true) u /\
              lo <= n + List.length u /\
              (forall h, hi = Some h -> n + List.length u <= h) /\
              k t (pos + List.length u) = Some r.
Proof.
  assert (Stop : forall s pos n r,
            (forall h, hi = Some h -> n <= h) ->
            (if Nat.leb lo n then k s pos else None) = Some r ->
            exists u t, s = u ++ t /\ Forall (fun c => mem cs c = true) u /\
                        lo <= n + List.length u /\
                        (forall h, hi = Some h -> n + List.length u <= h) /\
                        k t (pos + List.length u) = Some r).
  { intros s0 pos n r Hn H. destruct (Nat.leb lo n) eqn:E; [|discriminate].
    apply Nat.leb_le in E. exists [], s0. simpl. rewrite !Nat.add_0_r.
    repeat split; auto. }
  induction s as [|c t IH]; intros pos n r Hn H; simpl in H.
  - destruct (if Nat.leb lo n then k [] pos else None) eqn:E;
      [|discriminate]. injection H as <-. apply Stop; assumption.
  - destruct (if Nat.leb lo n then k (c :: t) pos else None) eqn:E.
    + injection H as <-. apply Stop; assumption.
    + destruct (mem cs c && below hi n) eqn:B; [|discriminate].
      apply andb_prop in B as [Hc Hb].
      assert (Hn' : forall h, hi = Some h -> S n <= h).
      { intros h Hh. subst hi. simpl in Hb. apply Nat.ltb_lt in Hb. lia. }
      destruct (IH _ _ _ Hn' H) as (u & t' & -> & Hu & Hlo & Hhi & Hk).
      exists (c :: u), t'. simpl. repeat split; auto; try lia.
      * intros h Hh. specialize (Hhi h Hh). lia.
      * replace (pos + S (List.length u)) with (S pos + List.length u)
          by lia. exact Hk.
Qed.

Lemma run_denotes prog : forall s pos m m',
  run prog s pos m = Some m' -> denotes prog s pos.
Proof.
  induction prog as [|nd k IH]; intros s pos m m' H; simpl in H |- *;
    [exact I|].
  destruct nd as [| |cs|cs lo hi g|i].
  - destruct (Nat.eqb_spec pos 0); [|discriminate]. split; eauto.
  - destruct (at_end s); [|discriminate]. split; eauto.
  - destruct s as [|c t]; [discriminate|].
    destruct (mem cs c) eqn:E; [|discriminate]. exists c, t. eauto.
  - assert (S : exists u t, s = u ++ t /\
                Forall (fun c => mem cs c = true) u /\
                lo <= 0 + List.length u /\
                (forall h, hi = Some h -> 0 + List.length u <= h) /\
                run k t (pos + List.length u) m = Some m').
    { destruct g;
        [apply (rep_greedy_sound cs lo hi (fun t p => run k t p m))
        |apply (rep_lazy_sound cs lo hi (fun t p => run k t p m))];
        auto; intros; lia. }
    destruct S as (u & t & -> & Hu & Hlo & Hhi & Hk).
    exists u, t. repeat split; eauto.
  - eauto.
Qed.

Lemma denotes_run prog : forall s pos,
  denotes prog s pos -> succeeds_at prog s pos.
Proof.
  unfold succeeds_at.
  induction prog as [|nd k IH]; intros s pos H m; simpl in H |- *;
    [discriminate|].
  destruct nd as [| |cs|cs lo hi g|i].
  - destruct H as [-> H]. simpl. apply IH. exact H.
  - destruct H as [-> H]. apply IH. exact H.
  - destruct H as (c & t & -> & -> & H). apply IH. exact H.
  - destruct H as (u & t & -> & Hu & Hlo & Hhi & H).
    destruct g;
      [apply ReFacts.rep_greedy_complete | apply ReFacts.rep_lazy_complete];
      simpl; auto; apply IH; exact H.
  - apply IH. exact H.
Qed.

Lemma matches_denotes p line :
  matches p line = true <-> denotes p line 0.
Proof.
  unfold matches, re_match. split.
  - destruct (run p line 0 []) as [m|] eqn:E; [|discriminate].
    intros _. eapply run_denotes. exact E.
  - intros H. pose proof (denotes_run p line 0 H []) as R.
    destruct (run p line 0 []); [reflexivity | contradiction].
Qed.

(** Marks, and whatever follows in the program, ask nothing more of the
    text up to there. *)
Lemma denotes_unmark prog : forall s pos,
  denotes (unmark prog) s pos <-> denotes prog s pos.
Proof.
  induction prog as [|nd k IH]; intros s pos; [reflexivity|].
  destruct nd as [| |cs|cs lo hi g|i]; simpl; try apply IH.
  - rewrite IH. reflexivity.
  - rewrite IH. reflexivity.
  - split; intros (c & t & H1 & H2 & H3); exists c, t;
      (split; [exact H1 | split; [exact H2 | apply IH; exact H3]]).
  - split; intros (u & t & H1 & H2 & H3 & H4 & H5); exists u, t;
      repeat split; auto; apply IH; exact H5.
Qed.

Lemma denotes_prefix p q : forall s pos,
  denotes (p ++ q) s pos -> denotes p s pos.
Proof.
  induction p as [|nd k IH]; intros s pos H; simpl in H |- *; [exact I|].
  destruct nd as [| |cs|cs lo hi g|i].
  - destruct H as [H1 H2]. split; eauto.
  - destruct H as [H1 H2]. split; eauto.
  - destruct H as (c & t & H1 & H2 & H3). exists c, t. eauto.
  - destruct H as (u & t & H1 & H2 & H3 & H4 & H5). exists u, t.
    repeat split; eauto.
  - eauto.
Qed.

(** A stretch without anchors takes a piece of the text and leaves the
    rest to what follows. *)
Lemma denotes_split seg k : forall s pos,
  floating seg = true ->
  denotes (seg ++ k) s pos ->
  exists u t, s = u ++ t /\ min_len seg <= List.length u /\
              denotes k t (pos + List.length u).
Proof.
  induction seg as [|nd seg IH]; intros s pos F H; simpl in *.
  - exists [], s. simpl. rewrite Nat.add_0_r. auto.
  - destruct nd as [| |cs|cs lo hi g|i]; try discriminate.
    + destruct H as (c & t & -> & _ & H).
      destruct (IH _ _ F H) as (u & t' & -> & Hl & Hk).
      exists (c :: u), t'. simpl. repeat split; [lia|].
      replace (pos + S (List.length u)) with (S pos + List.length u) by lia.
      exact Hk.
    + destruct H as (u0 & t & -> & _ & Hlo & _ & H).
      destruct (IH _ _ F H) as (u & t' & -> & Hl & Hk).
      exists (u0 ++ u), t'. rewrite length_app, <- app_assoc.
      repeat split; [lia|]. rewrite Nat.add_assoc. exact Hk.
    + apply IH; assumption.
Qed.

(** On a text without a newline, such a stretch that takes at least one
    character can be replaced by [.+] or [.+?]. *)
Lemma denotes_merge seg k g s pos :
  floating seg = true -> 1 <= min_len seg -> one_line s ->
  denotes (seg ++ k) s pos -> denotes (Rep Any 1 None g :: k) s pos.
Proof.
  intros F L N H. destruct (denotes_split seg k s pos F H)
    as (u & t & -> & Hl & Hk).
  simpl. exists u, t. repeat split; auto; try lia; try discriminate.
  apply Forall_forall. intros c Hc. simpl. unfold char_eqb.
  destruct (N.eqb_spec c newline) as [-> | _]; [|reflexivity].
  exfalso. apply N. apply in_or_app. left. exact Hc.
Qed.

(** A literal character of the program is in every text it matches. *)
Lemma denotes_literal x prog : forall s pos,
  In (One (Only x)) prog -> denotes prog s pos -> In x s.
Proof.
  induction prog as [|nd k IH]; intros s pos Hin H; [destruct Hin|].
  simpl in H. destruct nd as [| |cs|cs lo hi g|i].
  - destruct Hin as [E | Hin]; [discriminate|]. destruct H. eauto.
  - destruct Hin as [E | Hin]; [discriminate|]. destruct H. eauto.
  - destruct H as (c & t & -> & Hc & H). destruct Hin as [E | Hin].
    + injection E as ->. simpl in Hc. apply N.eqb_eq in Hc. subst.
      left. reflexivity.
    + right. eapply IH; eassumption.
  - destruct H as (u & t & -> & _ & _ & _ & H).
    destruct Hin as [E | Hin]; [discriminate|].
    apply in_or_app. right. eapply IH; eassumption.
  - destruct Hin as [E | Hin]; [discriminate|]. eauto.
Qed.

Lemma in_lstrip x s : In x (lstrip s) -> In x s.
Proof.
  induction s as [|c t IH]; simpl; [tauto|].
  destruct (isspace c); [intros H; right; apply IH; exact H | tauto].
Qed.

Lemma in_strip x s : In x (strip s) -> In x s.
Proof.
  unfold strip, rstrip. intros H. apply in_rev, in_lstrip, in_rev in H.
  apply in_lstrip. exact H.
Qed.

End DenoteFacts.

Module TableFacts.

Lemma no_literal_no_match x prog line :
  In (One (Only x)) prog -> ~ In x line -> matches prog line = false.
Proof.
  intros Hin Hx. destruct (matches prog line) eqn:E; [|reflexivity].
  apply DenoteFacts.matches_denotes in E.
  exfalso. apply Hx. eapply DenoteFacts.denotes_literal; eassumption.
Qed.

Lemma one_line_app_r u t : one_line (u ++ t) -> one_line t.
Proof. unfold one_line. intros H Hin. apply H, in_or_app. tauto. Qed.

(** What holds after a common beginning of two programs carries over to
    the whole programs. *)
Lemma denotes_under p q1 q2 :
  (forall s pos, one_line s -> denotes q1 s pos -> denotes q2 s pos) ->
  forall s pos, one_line s ->
    denotes (p ++ q1) s pos -> denotes (p ++ q2) s pos.
Proof.
  intros Hq. induction p as [|nd k IH]; intros s pos N H; simpl in H |- *;
    [apply Hq; assumption|].
  destruct nd as [| |cs|cs lo hi g|i].
  - destruct H as [H1 H2]. split; auto.
  - destruct H as [H1 H2]. split; auto.
  - destruct H as (c & t & -> & H2 & H3). exists c, t.
    repeat split; auto. apply IH; [|exact H3].
    apply (one_line_app_r [c] t). exact N.
  - destruct H as (u & t & -> & H2 & H3 & H4 & H5). exists u, t.
    repeat split; auto. apply IH; [|exact H5].
    apply (one_line_app_r u t). exact N.
  - auto.
Qed.

(** Program [B] is program [A] with the [b] nodes after the first [a]
    replaced by [.+] or [.+?]: on a line without a newline, [B] matches
    whatever [A] matches. *)
Lemma absorb (A B : Pattern) a b g line :
  B = firstn a A ++ Rep Any 1 None g :: skipn b (skipn a A) ->
  floating (firstn b (skipn a A)) = true ->
  1 <= min_len (firstn b (skipn a A)) ->
  one_line line ->
  denotes A line 0 -> denotes B line 0.
Proof.
  intros -> F L N H.
  apply (denotes_under (firstn a A)
           (firstn b (skipn a A) ++ skipn b (skipn a A))).
  - intros s pos Ns. apply DenoteFacts.denotes_merge; assumption.
  - exact N.
  - rewrite !firstn_skipn. exact H.
Qed.

Lemma drop_eol p line :
  denotes (p ++ [Eol]) line 0 -> denotes p line 0.
Proof. apply DenoteFacts.denotes_prefix. Qed.

(** The four inclusions between the entries of the table. *)
Lemma capture_1_test_1 line :
  one_line line ->
  matches (capture_re bracket_datetime_user) line = true ->
  matches (test_re bracket_datetime_user) line = true.
Proof.
  intros N H. apply DenoteFacts.matches_denotes in H.
  apply DenoteFacts.denotes_unmark in H.
  apply DenoteFacts.matches_denotes, drop_eol.
  revert H.
  apply (absorb (unmark (capture_re bracket_datetime_user))
           (test_re bracket_datetime_user ++ [Eol]) 2 1 false line);
    try reflexivity; try (simpl; lia); exact N.
Qed.

Lemma capture_3_test_3 line :
  matches (capture_re bracket_timestamp_user) line = true ->
  matches (test_re bracket_timestamp_user) line = true.
Proof.
  intros H. apply DenoteFacts.matches_denotes in H.
  apply DenoteFacts.denotes_unmark in H.
  apply DenoteFacts.matches_denotes, drop_eol. exact H.
Qed.

Lemma capture_4_test_4 line :
  matches (capture_re timestamp_dash_user) line = true ->
  matches (test_re timestamp_dash_user) line = true.
Proof.
  intros H. apply DenoteFacts.matches_denotes in H.
  apply DenoteFacts.denotes_unmark in H.
  apply DenoteFacts.matches_denotes, drop_eol. exact H.
Qed.

Lemma test_2_test_4 line :
  one_line line ->
  matches (test_re date_time_dash_user) line = true ->
  matches (test_re timestamp_dash_user) line = true.
Proof.
  intros N H. apply DenoteFacts.matches_denotes in H.
  apply DenoteFacts.matches_denotes. revert H.
  apply (absorb (test_re date_time_dash_user)
           (test_re timestamp_dash_user) 1 10 false line);
    try reflexivity; try (simpl; lia); exact N.
Qed.

Lemma capture_2_capture_4 line :
  one_line line ->
  matches (capture_re date_time_dash_user) line = true ->
  matches (capture_re timestamp_dash_user) line = true.
Proof.
  intros N H. apply DenoteFacts.matches_denotes in H.
  apply DenoteFacts.denotes_unmark in H.
  apply DenoteFacts.matches_denotes, DenoteFacts.denotes_unmark.
  revert H.
  apply (absorb (unmark (capture_re date_time_dash_user))
           (unmark (capture_re timestamp_dash_user)) 1 4 false line);
    try reflexivity; try (simpl; lia); exact N.
Qed.

Lemma test_1_test_3 line :
  one_line line ->
  matches (test_re bracket_datetime_user) line = true ->
  matches (test_re bracket_timestamp_user) line = true.
Proof.
  intros N H. apply DenoteFacts.matches_denotes in H.
  apply DenoteFacts.matches_denotes. revert H.
  apply (absorb (test_re bracket_datetime_user)
           (test_re bracket_timestamp_user) 2 4 false line);
    try reflexivity; try (simpl; lia); exact N.
Qed.

Lemma capture_1_capture_3 line :
  one_line line ->
  matches (capture_re bracket_datetime_user) line = true ->
  matches (capture_re bracket_timestamp_user) line = true.
Proof.
  intros N H. apply DenoteFacts.matches_denotes in H.
  apply DenoteFacts.denotes_unmark in H.
  apply DenoteFacts.matches_denotes, DenoteFacts.denotes_unmark.
  revert H.
  apply (absorb (unmark (capture_re bracket_datetime_user))
           (unmark (capture_re bracket_timestamp_user)) 2 4 false line);
    try reflexivity; try (simpl; lia); exact N.
Qed.

(** More matching lines keep a sample above the threshold. *)
Lemma count_matches_mono p q sample :
  (forall line, In line sample -> matches p line = true ->
                matches q line = true) ->
  (count_matches p sample <= count_matches q sample)%Z.
Proof.
  induction sample as [|l ls IH]; intros H; simpl count_matches; [lia|].
  assert (IH' : (count_matches p ls <= count_matches q ls)%Z)
    by (apply IH; intros; apply H; [right|]; assumption).
  destruct (matches p l) eqn:E.
  - rewrite (H l (or_introl eq_refl) E). lia.
  - destruct (matches q l); lia.
Qed.

Lemma accepts_mono c1 c2 sample :
  List.length sample <= 100 ->
  (forall line, In line sample -> matches (test_re c1) line = true ->
                matches (test_re c2) line = true) ->
  (forall line, In line sample -> matches (capture_re c1) line = true ->
                matches (capture_re c2) line = true) ->
  accepts c1 sample = true -> accepts c2 sample = true.
Proof.
  intros Hlen Ht Hc H. destruct sample as [|l0 ls].
  { unfold accepts in H. simpl in H. discriminate. }
  rewrite Selection.accepts_cons in *. apply andb_prop in H as [H1 H2].
  rewrite (Ht l0 (or_introl eq_refl) H1), andb_true_l.
  pose proof (MoreFacts.count_matches_bounds (capture_re c1) (l0 :: ls)).
  pose proof (MoreFacts.count_matches_bounds (capture_re c2) (l0 :: ls)).
  pose proof (count_matches_mono _ _ _ Hc) as M.
  assert (L : (1 <= len (l0 :: ls) <= 100)%Z)
    by (unfold len; change (List.length (l0 :: ls))
          with (S (List.length ls)) in *; lia).
  rewrite MoreFacts.exceeds_fraction in * by assumption.
  apply Z.ltb_lt in H2. apply Z.ltb_lt. lia.
Qed.

(** Checking by computation that lines hold no newline. *)
Lemma one_line_check line :
  forallb (fun c => negb (char_eqb c newline)) line = true -> one_line line.
Proof.
  intros H Hin. rewrite forallb_forall in H. specialize (H _ Hin).
  unfold char_eqb in H. rewrite N.eqb_refl in H. discriminate.
Qed.

Lemma one_lines_check sample :
  forallb (forallb (fun c => negb (char_eqb c newline))) sample = true ->
  Forall one_line sample.
Proof.
  intros H. rewrite forallb_forall in H. apply Forall_forall.
  intros line Hin. apply one_line_check, H, Hin.
Qed.

End TableFacts.

(** X10: every pattern of the table has a literal colon, so a physical
    line with no colon in it passes no shape test, matches no capture
    expression, and yields no record with any format of the table. *)
Theorem X10_no_colon_no_record c l :
  In c patterns_to_try ->
  ~ In (chr ":") l ->
  matches (test_re c) (strip l) = false /\
  matches (capture_re c) (strip l) = false /\
  parse_line (capture_re c) (cols c) l = [].
Proof.
  intros Hc Hl.
  assert (Hs : ~ In (chr ":") (strip l))
    by (intros H; apply Hl, DenoteFacts.in_strip; exact H).
  assert (T : matches (test_re c) (strip l) = false).
  { apply (TableFacts.no_literal_no_match (chr ":")); [|exact Hs].
    repeat (destruct Hc as [<- | Hc]; [ParseFacts.in_program|]).
    destruct Hc. }
  assert (C : matches (capture_re c) (strip l) = false).
  { apply (TableFacts.no_literal_no_match (chr ":")); [|exact Hs].
    repeat (destruct Hc as [<- | Hc]; [ParseFacts.in_program|]).
    destruct Hc. }
  repeat split; auto. apply ParseFacts.parse_line_skip. right. exact C.
Qed.

(** A notice, with the table's most permissive format. *)
Lemma X10_no_colon_witness :
  matches (test_re timestamp_dash_user)
    (strip (physical "Bob left - the group")) = false /\
  matches (capture_re timestamp_dash_user)
    (strip (physical "Bob left - the group")) = false /\
  parse_line (capture_re timestamp_dash_user) (cols timestamp_dash_user)
    (physical "Bob left - the group") = [].
Proof.
  apply (X10_no_colon_no_record timestamp_dash_user
           (physical "Bob left - the group")).
  - repeat ((left; reflexivity) || right).
  - vm_compute. intros H.
    repeat (destruct H as [H | H]; [discriminate H|]). exact H.
Defined.

(** X11: for [bracket_datetime_user], [bracket_timestamp_user] and
    [timestamp_dash_user] the shape test asks nothing that the capture
    expression does not: a line, as a text file yields it, that the
    capture expression matches passes the shape test too.  (Only
    [date_time_dash_user] has a shape test stricter than its capture
    expression.) *)
Theorem X11_capture_implies_shape_test c line :
  c = bracket_datetime_user \/ c = bracket_timestamp_user \/
  c = timestamp_dash_user ->
  one_line line ->
  matches (capture_re c) line = true ->
  matches (test_re c) line = true.
Proof.
  intros [-> | [-> | ->]] N H.
  - apply TableFacts.capture_1_test_1; assumption.
  - apply TableFacts.capture_3_test_3; assumption.
  - apply TableFacts.capture_4_test_4; assumption.
Qed.

(** A bracketed message. *)
Lemma X11_capture_implies_witness :
  matches (test_re bracket_datetime_user)
    (lit "[10/5/23, 14:02] Alice: Hello there") = true.
Proof.
  apply (X11_capture_implies_shape_test bracket_datetime_user
           (lit "[10/5/23, 14:02] Alice: Hello there")).
  - left. reflexivity.
  - apply TableFacts.one_line_check. reflexivity.
  - vm_compute. reflexivity.
Defined.

(** X12: the later entries of the table are the more permissive ones: on
    a line as a text file yields it, whatever the shape test or the
    capture expression of [date_time_dash_user] matches, that of
    [timestamp_dash_user] matches too, and likewise from
    [bracket_datetime_user] to [bracket_timestamp_user]. *)
Theorem X12_later_entries_are_more_permissive line :
  one_line line ->
  (matches (test_re date_time_dash_user) line = true ->
   matches (test_re timestamp_dash_user) line = true) /\
  (matches (capture_re date_time_dash_user) line = true ->
   matches (capture_re timestamp_dash_user) line = true) /\
  (matches (test_re bracket_datetime_user) line = true ->
   matches (test_re bracket_timestamp_user) line = true) /\
  (matches (capture_re bracket_datetime_user) line = true ->
   matches (capture_re bracket_timestamp_user) line = true).
Proof.
  intros N. repeat split.
  - apply TableFacts.test_2_test_4. exact N.
  - apply TableFacts.capture_2_capture_4. exact N.
  - apply TableFacts.test_1_test_3. exact N.
  - apply TableFacts.capture_1_capture_3. exact N.
Qed.

(** The example message. *)
Lemma X12_later_entries_witness :
  matches (capture_re timestamp_dash_user)
    (lit "10/5/23, 14:02 - Alice: Hello there") = true.
Proof.
  destruct (X12_later_entries_are_more_permissive
              (lit "10/5/23, 14:02 - Alice: Hello there"))
    as (_ & A & _ & _).
  - apply TableFacts.one_line_check. reflexivity.
  - apply A. vm_compute. reflexivity.
Defined.

(** X13: the order of the table is what lets the strict entries win: a
    sample of at most a hundred lines that satisfies the acceptance
    condition of [date_time_dash_user] satisfies that of
    [timestamp_dash_user] as well, so a loop that tried
    [timestamp_dash_user] first would return it; and likewise for
    [bracket_datetime_user] and [bracket_timestamp_user]. *)
Theorem X13_permissive_entry_would_shadow sample rest :
  Forall one_line sample ->
  List.length sample <= 100 ->
  (accepts date_time_dash_user sample = true ->
   accepts timestamp_dash_user sample = true /\
   outcome (try_patterns (timestamp_dash_user :: rest) sample) =
     Return (Some (capture_re timestamp_dash_user),
             Some (cols timestamp_dash_user))) /\
  (accepts bracket_datetime_user sample = true ->
   accepts bracket_timestamp_user sample = true /\
   outcome (try_patterns (bracket_timestamp_user :: rest) sample) =
     Return (Some (capture_re bracket_timestamp_user),
             Some (cols bracket_timestamp_user))).
Proof.
  intros N Hlen. rewrite Forall_forall in N. split; intros H.
  - assert (A : accepts timestamp_dash_user sample = true).
    { apply (TableFacts.accepts_mono date_time_dash_user); auto.
      - intros line Hin. apply TableFacts.test_2_test_4. auto.
      - intros line Hin. apply TableFacts.capture_2_capture_4. auto. }
    split; [exact A|].
    rewrite InferFacts.try_patterns_accept by exact A. reflexivity.
  - assert (A : accepts bracket_timestamp_user sample = true).
    { apply (TableFacts.accepts_mono bracket_datetime_user); auto.
      - intros line Hin. apply TableFacts.test_1_test_3. auto.
      - intros line Hin. apply TableFacts.capture_1_capture_3. auto. }
    split; [exact A|].
    rewrite InferFacts.try_patterns_accept by exact A. reflexivity.
Qed.

(** Twenty messages without a newline inside. *)
Lemma X13_permissive_entry_witness :
  accepts timestamp_dash_user (List.map lit twenty_messages) = true /\
  outcome (try_patterns [timestamp_dash_user; date_time_dash_user]
             (List.map lit twenty_messages)) =
    Return (Some (capture_re timestamp_dash_user),
            Some (cols timestamp_dash_user)).
Proof.
  destruct (X13_permissive_entry_would_shadow
              (List.map lit twenty_messages) [date_time_dash_user])
    as [A _].
  - apply TableFacts.one_lines_check. vm_compute. reflexivity.
  - change (20 <= 100). lia.
  - apply A. vm_compute. reflexivity.
Defined.

(** ** Whitespace around a line *)

Module WhitespaceFacts.

Lemma rstrip_snoc s c : isspace c = true -> rstrip (s ++ [c]) = rstrip s.
Proof.
  intros H. unfold rstrip. rewrite rev_app_distr. simpl. rewrite H.
  reflexivity.
Qed.

Lemma lstrip_snoc_trimmed s c :
  lstrip s = s -> isspace c = true ->
  rstrip (lstrip (s ++ [c])) = rstrip s.
Proof.
  intros Hs Hc. destruct s as [|x t].
  - simpl. rewrite Hc. reflexivity.
  - simpl in Hs |- *. destruct (isspace x) eqn:E.
    + exfalso. pose proof (f_equal (@List.length char) Hs) as L.
      simpl in L. clear - L.
      assert (B : forall u, List.length (lstrip u) <= List.length u).
      { induction u as [|y u IH]; simpl; [lia|].
        destruct (isspace y); simpl; lia. }
      specialize (B t). lia.
    + apply (rstrip_snoc (x :: t) c Hc).
Qed.

(** A line cut down to its stripped form and a line terminator strips to
    the same text. *)
Lemma strip_normalised l : strip (strip l ++ [newline]) = strip l.
Proof.
  destruct (StripFacts.strip_trimmed l) as [A B]. unfold strip at 1.
  rewrite lstrip_snoc_trimmed by (exact A || reflexivity). exact B.
Qed.

Lemma parse_line_strip pattern columns l l' :
  strip l' = strip l ->
  parse_line pattern columns l' = parse_line pattern columns l.
Proof. intros H. unfold parse_line. rewrite H. reflexivity. Qed.

Lemma sample_of_strip n (g : str -> str) ls :
  (forall l, strip (g l) = strip l) ->
  sample_of n (List.map g ls) = sample_of n ls.
Proof.
  intros H. unfold sample_of. rewrite firstn_map, map_map. f_equal.
  apply map_ext. exact H.
Qed.

Lemma records_of_strip pattern columns (g : str -> str) ls :
  (forall l, strip (g l) = strip l) ->
  records_of pattern columns (List.map g ls) = records_of pattern columns ls.
Proof.
  intros H. unfold records_of. induction ls as [|l ls IH]; [reflexivity|].
  simpl. rewrite IH, (parse_line_strip pattern columns l (g l) (H l)).
  reflexivity.
Qed.

End WhitespaceFacts.

(** X14: both functions see a physical line only through its stripped
    form: a readable file and the same file with every line cut down to
    its stripped text and a newline (indentation, trailing blanks and
    carriage returns removed) give the same inference, with the same
    output, and the same records. *)
Theorem X14_surrounding_whitespace_is_ignored
  fs fs' file_path ls n pattern columns :
  fs file_path = Handle (lines_then ls Eof) ->
  fs' file_path =
    Handle (lines_then (List.map (fun l => strip l ++ [newline]) ls) Eof) ->
  auto_generate_pattern fs file_path n =
  auto_generate_pattern fs' file_path n /\
  parse_chat_with_pattern fs file_path pattern columns =
  parse_chat_with_pattern fs' file_path pattern columns.
Proof.
  intros H H'. split.
  - unfold auto_generate_pattern, open_and_sample. rewrite H, H'.
    rewrite !InferFacts.read_sample_whole.
    rewrite (WhitespaceFacts.sample_of_strip _ _ ls
               WhitespaceFacts.strip_normalised).
    reflexivity.
  - rewrite (ParseFacts.parse_readable _ _ _ _ _ H).
    rewrite (ParseFacts.parse_readable _ _ _ _ _ H').
    rewrite (WhitespaceFacts.records_of_strip _ _ _ ls
               WhitespaceFacts.strip_normalised).
    reflexivity.
Qed.

(** The file with three lines of whitespace before its message. *)
Lemma X14_surrounding_whitespace_witness :
  auto_generate_pattern chat_after_blanks chat_txt 20 =
  auto_generate_pattern
    (disk (Handle (lines_then
       [ physical EmptyString; physical EmptyString; physical EmptyString;
         physical hello ] Eof))) chat_txt 20.
Proof.
  destruct (X14_surrounding_whitespace_is_ignored chat_after_blanks
              (disk (Handle (lines_then
                 [ physical EmptyString; physical EmptyString;
                   physical EmptyString; physical hello ] Eof)))
              chat_txt
              [ physical EmptyString; physical "   "; physical EmptyString;
                physical hello ]
              20 (capture_re date_time_dash_user)
              (cols date_time_dash_user)) as [A _].
  - reflexivity.
  - vm_compute. reflexivity.
  - exact A.
Defined.

(** * The claims on the order of the table and on exceptions *)

(** ** C6: the stricter entry wins *)

Module PriorityFacts.

(** A line that passes the shape test of [date_time_dash_user] starts with
    a digit, so it fails that of [bracket_datetime_user]. *)
Lemma digits_exclude_bracket l0 :
  matches (test_re date_time_dash_user) l0 = true ->
  matches (test_re bracket_datetime_user) l0 = false.
Proof.
  intros H. apply DenoteFacts.matches_denotes in H. simpl in H.
  destruct H as (_ & u & t & -> & Hu & Hlen & _).
  destruct u as [|c u]; [simpl in Hlen; lia|].
  inversion Hu as [|? ? Hc _]; subst. simpl in Hc.
  unfold matches, re_match. simpl.
  assert (E : char_eqb c (chr "[") = false)
    by (apply Layout.decimal_differs; [exact Hc | reflexivity]).
  rewrite E. reflexivity.
Qed.

(** [timestamp_dash_user] is not more permissive than
    [bracket_timestamp_user]: it asks for a dash. *)
Lemma dash_entry_not_above_bracket_entry :
  ~ more_permissive bracket_timestamp_user timestamp_dash_user.
Proof.
  intros H.
  destruct (H (lit "[14:02] Alice: Hi")) as [T _].
  - apply TableFacts.one_line_check. reflexivity.
  - assert (A : matches (test_re bracket_timestamp_user)
                  (lit "[14:02] Alice: Hi") = true)
      by (vm_compute; reflexivity).
    apply T in A. vm_compute in A. discriminate A.
Qed.

(** The two pairs of the table in which the later entry is the more
    permissive one. *)
Lemma dash_pair : more_permissive date_time_dash_user timestamp_dash_user.
Proof.
  intros line N. split.
  - apply TableFacts.test_2_test_4. exact N.
  - apply TableFacts.capture_2_capture_4. exact N.
Qed.

Lemma bracket_pair :
  more_permissive bracket_datetime_user bracket_timestamp_user.
Proof.
  intros line N. split.
  - apply TableFacts.test_1_test_3. exact N.
  - apply TableFacts.capture_1_capture_3. exact N.
Qed.

End PriorityFacts.

(** C6: candidates are tried in the fixed order of the table, and whenever
    the sample satisfies the acceptance condition of an entry and also
    that of a later, more permissive entry, inference returns the
    earlier, stricter one. *)
Theorem C6_stricter_entry_wins fs file_path n sample i j c1 c2 :
  open_and_sample fs file_path n = Return sample ->
  nth_error patterns_to_try i = Some c1 ->
  nth_error patterns_to_try j = Some c2 ->
  i < j ->
  more_permissive c1 c2 ->
  accepts c1 sample = true ->
  accepts c2 sample = true ->
  outcome (auto_generate_pattern fs file_path n) =
    Return (Some (capture_re c1), Some (cols c1)).
Proof.
  intros Hs Hi Hj Hij Hperm A1 A2.
  pose proof (MoreFacts.accepts_nonempty _ _ A1) as Hne.
  rewrite (InferFacts.auto_generate_pattern_sampled _ _ _ _ Hs Hne).
  rewrite InferFacts.outcome_pair.
  destruct (Selection.table_index _ _ Hi)
    as [[-> ->]|[[-> ->]|[[-> ->]|[-> ->]]]];
    destruct (Selection.table_index _ _ Hj)
      as [[-> ->]|[[-> ->]|[[-> ->]|[-> ->]]]];
    try lia.
  - apply (InferFacts.try_patterns_first [] bracket_datetime_user);
      [constructor | exact A1].
  - apply (InferFacts.try_patterns_first [] bracket_datetime_user);
      [constructor | exact A1].
  - apply (InferFacts.try_patterns_first [] bracket_datetime_user);
      [constructor | exact A1].
  - apply (InferFacts.try_patterns_first [bracket_datetime_user]
             date_time_dash_user); [|exact A1].
    constructor; [|constructor]. destruct sample as [|l0 ls];
      [contradiction|].
    rewrite Selection.accepts_cons in A1 |- *.
    apply andb_prop in A1 as [T _].
    rewrite (PriorityFacts.digits_exclude_bracket l0 T). reflexivity.
  - apply (InferFacts.try_patterns_first [bracket_datetime_user]
             date_time_dash_user); [|exact A1].
    constructor; [|constructor]. destruct sample as [|l0 ls];
      [contradiction|].
    rewrite Selection.accepts_cons in A1 |- *.
    apply andb_prop in A1 as [T _].
    rewrite (PriorityFacts.digits_exclude_bracket l0 T). reflexivity.
  - exfalso. exact (PriorityFacts.dash_entry_not_above_bracket_entry Hperm).
Qed.

(** The twenty messages satisfy [date_time_dash_user] and the more
    permissive [timestamp_dash_user]. *)
Lemma C6_stricter_entry_witness :
  more_permissive date_time_dash_user timestamp_dash_user /\
  accepts timestamp_dash_user (List.map lit twenty_messages) = true /\
  outcome (auto_generate_pattern chat_of_twenty chat_txt 20) =
    Return (Some (capture_re date_time_dash_user),
            Some (cols date_time_dash_user)).
Proof.
  assert (A2 : accepts timestamp_dash_user (List.map lit twenty_messages)
               = true) by (vm_compute; reflexivity).
  assert (A1 : accepts date_time_dash_user (List.map lit twenty_messages)
               = true) by (vm_compute; reflexivity).
  assert (S : open_and_sample chat_of_twenty chat_txt 20
              = Return (List.map lit twenty_messages))
    by (vm_compute; reflexivity).
  split; [exact PriorityFacts.dash_pair|]. split; [exact A2|].
  apply (C6_stricter_entry_wins chat_of_twenty chat_txt 20
           (List.map lit twenty_messages) 1 3
           date_time_dash_user timestamp_dash_user S eq_refl eq_refl).
  - lia.
  - exact PriorityFacts.dash_pair.
  - exact A1.
  - exact A2.
Defined.

(** ** C10: what can reach the caller *)

Module ConsoleFacts.

(** On a standard output that takes every message, the function does what
    it does with a [print] that cannot fail. *)
Lemma try_patterns_accepting out sample :
  (forall m, out m = None) ->
  forall table,
    Console.try_patterns table sample out = try_patterns table sample.
Proof.
  intros H. induction table as [|c rest IH]; simpl.
  - unfold Console.bind, Console.print, Console.ret. rewrite H. reflexivity.
  - unfold Console.bind, Console.print, Console.ret, Console.lift,
      bind, print, ret, lift.
    destruct (first_line sample) as [l0|e]; [|reflexivity].
    destruct (matches (test_re c) l0); [|rewrite IH; reflexivity].
    rewrite H.
    destruct (true_div (count_matches (capture_re c) sample) (len sample))
      as [ratio|e]; [|reflexivity].
    destruct (float_gt ratio f0_9).
    + rewrite !H. reflexivity.
    + rewrite H, IH. reflexivity.
Qed.

Lemma auto_generate_pattern_accepting out fs file_path n :
  (forall m, out m = None) ->
  Console.auto_generate_pattern fs file_path n out =
  auto_generate_pattern fs file_path n.
Proof.
  intros H. unfold Console.auto_generate_pattern, auto_generate_pattern.
  unfold Console.bind at 1, Console.print at 1, bind at 1, print at 1.
  rewrite H.
  destruct (open_and_sample fs file_path n) as [sample|e].
  - destruct (negb (truthy_list sample)).
    + unfold Console.bind, Console.print, Console.ret, bind, print, ret.
      rewrite H. reflexivity.
    + rewrite try_patterns_accepting by exact H. reflexivity.
  - destruct (is_file_not_found e);
      unfold Console.bind, Console.print, Console.ret, bind, print, ret;
      rewrite H; reflexivity.
Qed.

Lemma try_patterns_ends_well out sample :
  sample <> [] ->
  forall table,
    ends_well out (outcome (Console.try_patterns table sample out)).
Proof.
  intros Hne.
  assert (F : exists l0, first_line sample = Return l0)
    by (destruct sample; [contradiction | eexists; reflexivity]).
  destruct F as [l0 F].
  induction table as [|c rest IH]; simpl Console.try_patterns.
  - unfold Console.bind, Console.print, Console.ret.
    destruct (out NoConsistentPattern) as [e|] eqn:E.
    + right. right. exists NoConsistentPattern, e. auto.
    + left. reflexivity.
  - unfold Console.bind at 1, Console.lift. rewrite F.
    destruct (matches (test_re c) l0).
    2:{ destruct (Console.try_patterns rest sample out) as [w r].
        exact IH. }
    unfold Console.bind at 1, Console.print at 1.
    destruct (out (PotentialPattern (pattern_name c))) as [e|] eqn:E1.
    { right. right. exists (PotentialPattern (pattern_name c)), e. auto. }
    destruct (InferFacts.true_div_len
                (count_matches (capture_re c) sample) sample Hne)
      as [ratio Hr].
    unfold Console.bind at 1. rewrite Hr.
    destruct (float_gt ratio f0_9).
    + unfold Console.bind, Console.print, Console.ret.
      destruct (out (ConsistentPattern (pattern_name c))) as [e|] eqn:E2.
      { right. right. exists (ConsistentPattern (pattern_name c)), e.
        auto. }
      destruct (out (RegexIs (capture_re c))) as [e|] eqn:E3.
      { right. right. exists (RegexIs (capture_re c)), e. auto. }
      right. left. exists (capture_re c), (cols c). reflexivity.
    + unfold Console.bind at 1, Console.print at 1.
      destruct (out (Inconsistent (pattern_name c))) as [e|] eqn:E2.
      { right. right. exists (Inconsistent (pattern_name c)), e. auto. }
      destruct (Console.try_patterns rest sample out) as [w r].
      exact IH.
Qed.

Lemma auto_generate_pattern_ends_well out fs file_path n :
  ends_well out (outcome (Console.auto_generate_pattern fs file_path n out)).
Proof.
  unfold Console.auto_generate_pattern.
  unfold Console.bind at 1, Console.print at 1.
  destruct (out (Analyzing n)) as [e|] eqn:E0.
  { right. right. exists (Analyzing n), e. auto. }
  destruct (open_and_sample fs file_path n) as [sample|e].
  - destruct sample as [|l0 ls].
    + change (negb (truthy_list (@nil str))) with true. cbv iota.
      unfold Console.bind, Console.print, Console.ret.
      destruct (out EmptySample) as [e|] eqn:E1.
      * right. right. exists EmptySample, e. auto.
      * left. reflexivity.
    + change (negb (truthy_list (l0 :: ls))) with false. cbv iota.
      pose proof (try_patterns_ends_well out (l0 :: ls)
                    ltac:(discriminate) patterns_to_try) as T.
      destruct (Console.try_patterns patterns_to_try (l0 :: ls) out)
        as [w r]. exact T.
  - destruct (is_file_not_found e);
      unfold Console.bind, Console.print, Console.ret.
    + destruct (out (SampleFileNotFound file_path)) as [e'|] eqn:E1.
      * right. right. exists (SampleFileNotFound file_path), e'. auto.
      * left. reflexivity.
    + destruct (out (ErrorReadingFile e)) as [e'|] eqn:E1.
      * right. right. exists (ErrorReadingFile e), e'. auto.
      * left. reflexivity.
Qed.

(** An error while opening the file or reading the sample gives no
    format. *)
Lemma auto_generate_pattern_unreadable out fs file_path n e :
  open_and_sample fs file_path n = Raise e ->
  outcome (Console.auto_generate_pattern fs file_path n out)
    = Return (None, None) \/
  exists m e', out m = Some e' /\
    outcome (Console.auto_generate_pattern fs file_path n out) = Raise e'.
Proof.
  intros H.
  unfold Console.auto_generate_pattern, Console.bind, Console.print,
    Console.ret.
  rewrite H.
  destruct (out (Analyzing n)) as [e0|] eqn:E0.
  { right. exists (Analyzing n), e0. auto. }
  destruct (is_file_not_found e).
  - destruct (out (SampleFileNotFound file_path)) as [e'|] eqn:E1.
    + right. exists (SampleFileNotFound file_path), e'. auto.
    + left. reflexivity.
  - destruct (out (ErrorReadingFile e)) as [e'|] eqn:E1.
    + right. exists (ErrorReadingFile e), e'. auto.
    + left. reflexivity.
Qed.

End ConsoleFacts.

(** C10, as the code has it: an exception reaches the caller of
    [auto_generate_pattern] only when one of its [print] calls raises;
    no state of the file does that.  When standard output takes every
    message the function does not raise and its result is all or nothing:
    [(None, None)], or a capture expression together with a list of
    column names.  An error while opening the file or while reading the
    sampled lines never gives a format: the result is [(None, None)],
    unless a [print] raises. *)
Theorem C10_only_print_can_raise out fs file_path n :
  (outcome (Console.auto_generate_pattern fs file_path n out)
     = Return (None, None) \/
   (exists capture columns,
      outcome (Console.auto_generate_pattern fs file_path n out)
        = Return (Some capture, Some columns)) \/
   (exists m e,
      out m = Some e /\
      outcome (Console.auto_generate_pattern fs file_path n out)
        = Raise e)) /\
  ((forall m, out m = None) ->
   Console.auto_generate_pattern fs file_path n out =
     auto_generate_pattern fs file_path n /\
   (outcome (Console.auto_generate_pattern fs file_path n out)
      = Return (None, None) \/
    exists capture columns,
      outcome (Console.auto_generate_pattern fs file_path n out)
        = Return (Some capture, Some columns))) /\
  (forall e,
     fs file_path = Denied e \/
     (exists ls, fs file_path = Handle (lines_then ls (Broken e)) /\
                 List.length ls < Z.to_nat n) ->
     outcome (Console.auto_generate_pattern fs file_path n out)
       = Return (None, None) \/
     exists m e',
       out m = Some e' /\
       outcome (Console.auto_generate_pattern fs file_path n out)
         = Raise e').
Proof.
  pose proof (ConsoleFacts.auto_generate_pattern_ends_well out fs file_path n)
    as W.
  split; [exact W|]. split.
  - intros H. split.
    + apply ConsoleFacts.auto_generate_pattern_accepting. exact H.
    + destruct W as [W | [W | (m & e & Hm & _)]]; auto.
      rewrite H in Hm. discriminate.
  - intros e He. apply (ConsoleFacts.auto_generate_pattern_unreadable _ _ _ _ e).
    unfold open_and_sample.
    destruct He as [-> | (ls & -> & Hn)]; [reflexivity|].
    apply StreamFacts.read_sample_broken. exact Hn.
Qed.

(** A standard output that takes every message, and a file that is
    missing. *)
Lemma C10_only_print_witness :
  Console.auto_generate_pattern chat_of_twenty chat_txt 20 Console.accepting
    = auto_generate_pattern chat_of_twenty chat_txt 20 /\
  outcome (Console.auto_generate_pattern no_chat chat_txt 20
             Console.accepting) = Return (None, None).
Proof.
  split.
  - destruct (C10_only_print_can_raise Console.accepting chat_of_twenty
                chat_txt 20) as (_ & A & _).
    apply A. intros m. reflexivity.
  - destruct (C10_only_print_can_raise Console.accepting no_chat
                chat_txt 20) as (_ & _ & B).
    destruct (B FileNotFoundError (or_introl eq_refl))
      as [R | (m & e & Hm & _)]; [exact R | discriminate Hm].
Defined.

(** C10 fails as stated: the first [print] stands before the [try], and
    on a standard output that cannot encode its message the call raises
    [UnicodeEncodeError] to its caller, before the file is even opened. *)
Lemma C10_counterexample :
  Console.ascii_stdout (Analyzing 20) = Some UnicodeEncodeError /\
  Console.auto_generate_pattern chat_of_twenty chat_txt 20
    Console.ascii_stdout = ([], Raise UnicodeEncodeError) /\
  Console.auto_generate_pattern no_chat chat_txt 20
    Console.ascii_stdout = ([], Raise UnicodeEncodeError).
Proof. repeat split. Qed.
